(** * OTP gateway: rate limiting, lockout and one-time codes

    A shallow embedding of [api/accounts/views.py], [serializers.py],
    [services.py] and [password.py].  The handlers talk to a Redis
    client, to the user table and to a task queue; the embedding threads
    one [world] value through them and returns Python exceptions as
    values, so that a handler is a function from a world to an outcome
    and a world. *)

From Stdlib Require Import ZArith Lia Bool Ascii String.
From Stdlib Require Import Decimal DecimalString DecimalZ.
From stdpp Require Import base option list gmap strings.

Local Open Scope string_scope.
Local Open Scope Z_scope.

(** ** Python values used by the handlers *)

Module Py.

(** [str(n)] for an integer. *)
Definition str (n : Z) : string := NilZero.string_of_int (Z.to_int n).

(** [int(s)] on the spellings a counter can have, an optional minus sign
    followed by digits; [None] stands for the [ValueError] Python raises.
    Python also accepts blanks around the number, a plus sign and
    underscores, which INCR never writes. *)
Definition int (s : string) : option Z :=
  match NilZero.int_of_string s with
  | Some d => Some (Z.of_int d)
  | None => None
  end.

(** Truth value of a [str] object: the empty string is false. *)
Definition truthy (s : string) : bool :=
  match s with EmptyString => false | String _ _ => true end.

(** ASCII letters: the strings of this model are byte strings, and
    on ASCII [str.lower] maps A..Z to a..z and changes nothing else. *)
Definition lower_ascii (c : ascii) : ascii :=
  let n := nat_of_ascii c in
  if ((65 <=? n)%nat && (n <=? 90)%nat)%bool then ascii_of_nat (n + 32) else c.

Fixpoint lower (s : string) : string :=
  match s with
  | EmptyString => EmptyString
  | String c r => String (lower_ascii c) (lower r)
  end.

Definition is_digit (c : ascii) : bool :=
  let n := nat_of_ascii c in ((48 <=? n)%nat && (n <=? 57)%nat)%bool.

(** [s.isdigit()]: every character a digit, and at least one. *)
Fixpoint all_digits (s : string) : bool :=
  match s with
  | EmptyString => true
  | String c r => is_digit c && all_digits r
  end.

Definition isdigit (s : string) : bool := truthy s && all_digits s.

(** Characters removed by [str.strip()] with no argument. *)
Definition is_space (c : ascii) : bool :=
  let n := nat_of_ascii c in
  (((9 <=? n)%nat && (n <=? 13)%nat) || ((28 <=? n)%nat && (n <=? 32)%nat))%bool.

Fixpoint lstrip (s : string) : string :=
  match s with
  | EmptyString => EmptyString
  | String c r => if is_space c then lstrip r else s
  end.

(** [rstrip] keeps a character when something that is not a space
    follows it or when it is not a space itself. *)
Fixpoint rstrip (s : string) : string :=
  match s with
  | EmptyString => EmptyString
  | String c r =>
      match rstrip r with
      | EmptyString => if is_space c then EmptyString else String c EmptyString
      | r' => String c r'
      end
  end.

Definition strip (s : string) : string := rstrip (lstrip s).

(** [s.split(',')[0]]: the text before the first comma. *)
Fixpoint before_comma (s : string) : string :=
  match s with
  | EmptyString => EmptyString
  | String c r => if Ascii.eqb c "," then EmptyString else String c (before_comma r)
  end.

(** How an f-string renders an optional string: [None] prints as the
    word None. *)
Definition fmt (o : option string) : string :=
  match o with Some s => s | None => "None" end.

End Py.

(** ** Exceptions and the handler monad *)

Inductive exn : Type :=
| ResponseError        (* redis: value is not an integer, bad expire time *)
| ValueError           (* int() on a non-numeric string *)
| IntegrityError       (* unique constraint of the user table *)
| MultipleObjectsReturned
| ObjectDoesNotExist.    (* a missing related row *)

Inductive outcome (A : Type) : Type :=
| Ok (a : A)
| Raise (e : exn).
Arguments Ok {A} a.
Arguments Raise {A} e.

(** A computation over a state [S]: effects done before an exception
    stay done, so the state is returned in both cases. *)
Definition M (S A : Type) : Type := S -> outcome A * S.

Definition ret {S A} (a : A) : M S A := fun s => (Ok a, s).

Definition raise {S A} (e : exn) : M S A := fun s => (Raise e, s).

Definition bind {S A B} (m : M S A) (k : A -> M S B) : M S B :=
  fun s =>
    match m s with
    | (Ok a, s') => k a s'
    | (Raise e, s') => (Raise e, s')
    end.

Declare Scope py_scope.
Delimit Scope py_scope with py.
Notation "x <- m ;; k" := (bind m (fun x => k))
  (at level 100, m at next level, right associativity) : py_scope.
Notation "m ;;; k" := (bind m (fun _ => k))
  (at level 100, right associativity) : py_scope.
Local Open Scope py_scope.

(** ** The Redis server behind [redis_client]

    Keys hold strings ([decode_responses=True]); a key may carry an
    absolute expiry time.  The clock counts whole seconds, the unit of
    every duration the handlers pass or read, and stands still during one
    call of a handler: time passes between calls, through [tick].  A key
    whose expiry has been reached is gone for every command.  [trace]
    records the commands received, oldest first. *)

Module Redis.

Record entry : Type := Entry { value : string; expiry : option Z }.

Inductive cmd : Type :=
| GET (k : string)
| SETEX (k : string) (secs : Z) (v : string)
| INCR (k : string)
| EXPIRE (k : string) (secs : Z)
| TTL (k : string)
| DEL (k : string).

Record t : Type := Make { clock : Z; keys : gmap string entry; trace : list cmd }.

Definition empty (now : Z) : t := Make now ∅ [].

Definition expired (now : Z) (e : entry) : bool :=
  match expiry e with
  | Some x => x <=? now
  | None => false
  end.

(** The entry a command sees under [k]. *)
Definition live (r : t) (k : string) : option entry :=
  match keys r !! k with
  | Some e => if expired (clock r) e then None else Some e
  | None => None
  end.

Definition record (c : cmd) (r : t) : t :=
  Make (clock r) (keys r) (trace r ++ [c])%list.

Definition put (k : string) (e : entry) (r : t) : t :=
  Make (clock r) (<[k := e]> (keys r)) (trace r).

Definition drop (k : string) (r : t) : t :=
  Make (clock r) (delete k (keys r)) (trace r).

(** Time passing between two requests. *)
Definition tick (d : Z) (r : t) : t := Make (clock r + d) (keys r) (trace r).

Definition get (k : string) : M t (option string) :=
  fun r => let r := record (GET k) r in
           (Ok (value <$> live r k), r).

Definition setex (k : string) (secs : Z) (v : string) : M t bool :=
  fun r => let r := record (SETEX k secs v) r in
           if secs <=? 0 then (Raise ResponseError, r)
           else (Ok true, put k (Entry v (Some (clock r + secs))) r).

(** INCR: an absent key counts as 0 and the new key has no expiry; an
    existing key keeps its expiry; a value that is no integer is an
    error.  The integer is not bounded here: the 64-bit limit of the
    server is out of reach of a counter that lives for one window. *)
Definition incr (k : string) : M t Z :=
  fun r => let r := record (INCR k) r in
           match live r k with
           | None => (Ok 1, put k (Entry (Py.str 1) None) r)
           | Some e =>
               match Py.int (value e) with
               | Some n => (Ok (n + 1), put k (Entry (Py.str (n + 1)) (expiry e)) r)
               | None => (Raise ResponseError, r)
               end
           end.

(** EXPIRE: a timeout that is not positive deletes the key. *)
Definition expire (k : string) (secs : Z) : M t bool :=
  fun r => let r := record (EXPIRE k secs) r in
           match live r k with
           | None => (Ok false, r)
           | Some e =>
               if secs <=? 0 then (Ok true, drop k r)
               else (Ok true, put k (Entry (value e) (Some (clock r + secs))) r)
           end.

(** TTL: -2 for no key, -1 for a key without expiry. *)
Definition ttl (k : string) : M t Z :=
  fun r => let r := record (TTL k) r in
           match live r k with
           | None => (Ok (-2), r)
           | Some e =>
               match expiry e with
               | None => (Ok (-1), r)
               | Some x => (Ok (x - clock r), r)
               end
           end.

Definition del (k : string) : M t Z :=
  fun r => let r := record (DEL k) r in
           match live r k with
           | None => (Ok 0, drop k r)
           | Some _ => (Ok 1, drop k r)
           end.

End Redis.

(** ** [OTPService] and [RateLimiter] of views.py

    The settings have the defaults views.py gives them when the
    environment sets nothing. *)

Module OTPService.

Definition OTP_LENGTH : nat := 6.
Definition OTP_EXPIRY_SECONDS : Z := 300.

Definition key (email : string) : string := "otp:" ++ email.

(** [random.choices(string.digits, k=OTP_LENGTH)] joined: [draw i] is
    the index the generator picks at its [i]-th call, [from] the number
    of calls made so far. *)
Definition digit (n : nat) : ascii := ascii_of_nat (48 + n mod 10).

Fixpoint choices (draw : nat -> nat) (from k : nat) : string :=
  match k with
  | O => EmptyString
  | S k' => String (digit (draw from)) (choices draw (S from) k')
  end.

Definition generate_otp (draw : nat -> nat) (from : nat) : string :=
  choices draw from OTP_LENGTH.

Definition store_otp (email otp : string) : M Redis.t bool :=
  Redis.setex (key email) OTP_EXPIRY_SECONDS otp ;;;
  ret true.

Definition verify_otp (email otp : string) : M Redis.t bool :=
  stored_otp <- Redis.get (key email) ;;
  match stored_otp with
  | None => ret false
  | Some stored =>
      if negb (Py.truthy stored) then ret false
      else if negb (String.eqb stored otp) then ret false
      else Redis.del (key email) ;;; ret true
  end.

End OTPService.

Module RateLimiter.

Definition EMAIL_LIMIT : Z := 3.
Definition EMAIL_WINDOW_SECONDS : Z := 600.
Definition IP_LIMIT : Z := 10.
Definition IP_WINDOW_SECONDS : Z := 3600.
Definition FAILED_LIMIT : Z := 5.
Definition FAILED_WINDOW_SECONDS : Z := 900.

Definition email_key (email : string) : string := "ratelimit:email:" ++ email.
Definition ip_key (ip_address : option string) : string :=
  "ratelimit:ip:" ++ Py.fmt ip_address.
Definition failed_key (email : string) : string := "failed_otp:" ++ email.

Definition is_email_rate_limited (email : string) : M Redis.t (bool * Z) :=
  let key := email_key email in
  current <- Redis.incr key ;;
  (if current =? 1 then Redis.expire key EMAIL_WINDOW_SECONDS else ret false) ;;;
  if EMAIL_LIMIT <? current then
    ttl <- Redis.ttl key ;; ret (true, ttl)
  else ret (false, 0).

Definition is_ip_rate_limited (ip_address : option string) : M Redis.t (bool * Z) :=
  let key := ip_key ip_address in
  current <- Redis.incr key ;;
  (if current =? 1 then Redis.expire key IP_WINDOW_SECONDS else ret false) ;;;
  if IP_LIMIT <? current then
    ttl <- Redis.ttl key ;; ret (true, ttl)
  else ret (false, 0).

Definition track_failed_attempt (email : string) : M Redis.t (bool * Z) :=
  let key := failed_key email in
  current <- Redis.incr key ;;
  (if current =? 1 then Redis.expire key FAILED_WINDOW_SECONDS else ret false) ;;;
  if FAILED_LIMIT <=? current then
    ttl <- Redis.ttl key ;; ret (true, ttl)
  else ret (false, 0).

Definition is_email_locked (email : string) : M Redis.t (bool * Z) :=
  let key := failed_key email in
  count <- Redis.get key ;;
  match count with
  | None => ret (false, 0)
  | Some c =>
      if negb (Py.truthy c) then ret (false, 0)
      else match Py.int c with
           | None => raise ValueError
           | Some n =>
               if FAILED_LIMIT <=? n then
                 ttl <- Redis.ttl key ;; ret (true, ttl)
               else ret (false, 0)
           end
  end.

Definition clear_failed_attempts (email : string) : M Redis.t bool :=
  Redis.del (failed_key email) ;;;
  ret true.

End RateLimiter.

(** ** The rest of the world: user table, task queue, random generator *)

Record user : Type := User {
  id : Z;
  username : string;
  email : string;
  first_name : string;
  last_name : string;
  is_active : bool;
  date_joined : Z
}.

Inductive meta : Type :=
| MStr (s : string)
| MInt (n : Z)
| MBool (b : bool).

(** Tasks handed to the queue with [.delay]. *)
Inductive task : Type :=
| send_otp_email (email otp : string)
| write_audit_log (event email : string) (ip_address : option string)
    (user_agent : string) (metadata : list (string * meta)).

Record world : Type := World {
  redis : Redis.t;
  users : list user;
  queue : list task;       (* oldest first *)
  drawn : nat              (* calls made to the random generator *)
}.

Definition elapse (d : Z) (w : world) : world :=
  World (Redis.tick d (redis w)) (users w) (queue w) (drawn w).

(** Run a Redis computation on the world's server. *)
Definition on_redis {A} (m : M Redis.t A) : M world A :=
  fun w => let '(o, r) := m (redis w) in
           (o, World r (users w) (queue w) (drawn w)).

Definition delay (t : task) : M world unit :=
  fun w => (Ok tt, World (redis w) (users w) (queue w ++ [t])%list (drawn w)).

(** ** Requests and responses *)

Record request : Type := Request {
  data_email : option string;           (* request.data['email'] *)
  data_otp : option string;             (* request.data['otp'] *)
  HTTP_X_FORWARDED_FOR : option string;
  REMOTE_ADDR : option string;
  HTTP_USER_AGENT : option string
}.

Inductive payload : Type :=
| Errors (fields : list string)         (* serializer.errors, by field *)
| RetryAfter (retry_after_seconds : Z)
| Sent (email : string) (expiry_seconds : Z)
| UnlockEta (unlock_eta_seconds : Z)
| NoData
| Session (u : user) (access refresh : string).

Record response : Type := Response {
  success : bool;
  message : string;
  status_code : Z;        (* the copy inside the body *)
  data : payload;
  status : Z              (* the HTTP status *)
}.

Definition get_client_ip (request : request) : option string :=
  match HTTP_X_FORWARDED_FOR request with
  | Some x =>
      if Py.truthy x then Some (Py.strip (Py.before_comma x))
      else REMOTE_ADDR request
  | None => REMOTE_ADDR request
  end.

Definition get_client_user_agent (request : request) : string :=
  match HTTP_USER_AGENT request with
  | Some ua => ua
  | None => ""
  end.

(** ** Serializers and views

    Three things come from outside the repository and are parameters:
    the framework's [EmailField] (cleaning and validation of the raw
    value, [None] when it rejects), the random generator and the token
    library. *)

Section Handlers.

Variable email_field : string -> option string.
Variable draw : nat -> nat.
Variable for_user : user -> Z -> string * string.   (* (refresh, access) *)

(** [CharField(max_length=6, min_length=6)] followed by [validate_otp]. *)
Definition otp_field (raw : string) : option string :=
  let v := Py.strip raw in
  if ((String.length v =? 6)%nat && Py.isdigit v)%bool then Some v else None.

(** A required field: absent from the body, or rejected, is an error. *)
Definition run_field (f : string -> option string) (raw : option string)
  : option string :=
  match raw with
  | Some x => f x
  | None => None
  end.

(** [OTPRequestSerializer]: validated email, or the fields in error. *)
Definition OTPRequestSerializer (request : request) : string + list string :=
  match run_field email_field (data_email request) with
  | Some value => inl (Py.lower value)
  | None => inr ["email"]
  end.

(** [OTPVerifySerializer]: validated (email, otp), or the fields in error. *)
Definition OTPVerifySerializer (request : request)
  : string * string + list string :=
  match run_field email_field (data_email request),
        run_field otp_field (data_otp request) with
  | Some value, Some otp => inl (Py.lower value, otp)
  | None, Some _ => inr ["email"]
  | Some _, None => inr ["otp"]
  | None, None => inr ["email"; "otp"]
  end.

Definition generate_otp : M world string :=
  fun w => (Ok (OTPService.generate_otp draw (drawn w)),
            World (redis w) (users w) (queue w) (drawn w + OTPService.OTP_LENGTH)%nat).

Definition OTPRequestView_post (request : request) : M world response :=
  match OTPRequestSerializer request with
  | inr errors => ret (Response false "Invalid request" 400 (Errors errors) 400)
  | inl email =>
      let ip_address := get_client_ip request in
      let user_agent := get_client_user_agent request in
      r <- on_redis (RateLimiter.is_email_rate_limited email) ;;
      if fst r then
        delay (write_audit_log "OTP_REQUESTED" email ip_address user_agent
                 [("reason", MStr "Email rate limit exceeded")]) ;;;
        ret (Response false "Too many OTP requests. Please try again later."
               429 (RetryAfter (snd r)) 429)
      else
        r <- on_redis (RateLimiter.is_ip_rate_limited ip_address) ;;
        if fst r then
          delay (write_audit_log "OTP_REQUESTED" email ip_address user_agent
                   [("reason", MStr "IP rate limit exceeded")]) ;;;
          ret (Response false
                 "Too many OTP requests from this IP. Please try again later."
                 429 (RetryAfter (snd r)) 429)
        else
          otp <- generate_otp ;;
          on_redis (OTPService.store_otp email otp) ;;;
          delay (send_otp_email email otp) ;;;
          delay (write_audit_log "OTP_REQUESTED" email ip_address user_agent []) ;;;
          ret (Response true "OTP sent to your email" 202
                 (Sent email OTPService.OTP_EXPIRY_SECONDS) 202)
  end.

(** [User.objects.get_or_create(email=email, defaults={'username': email})]:
    [username] is unique in the table, so creating a row whose username
    is taken fails. *)
Definition next_id (us : list user) : Z :=
  1 + fold_right Z.max 0 (map id us).

Definition get_or_create (e : string) : M world (user * bool) :=
  fun w =>
    match filter (fun u => email u = e) (users w) with
    | [u] => (Ok (u, false), w)
    | _ :: _ :: _ => (Raise MultipleObjectsReturned, w)
    | [] =>
        if existsb (fun u => String.eqb (username u) e) (users w)
        then (Raise IntegrityError, w)
        else
          let u := User (next_id (users w)) e e "" "" true (Redis.clock (redis w)) in
          (Ok (u, true), World (redis w) (users w ++ [u])%list (queue w) (drawn w))
    end.

Definition now : M world Z := fun w => (Ok (Redis.clock (redis w)), w).

Definition OTPVerifyView_post (request : request) : M world response :=
  match OTPVerifySerializer request with
  | inr errors => ret (Response false "Invalid request" 400 (Errors errors) 400)
  | inl (email, otp) =>
      let ip_address := get_client_ip request in
      let user_agent := get_client_user_agent request in
      locked <- on_redis (RateLimiter.is_email_locked email) ;;
      if fst locked then
        delay (write_audit_log "OTP_LOCKED" email ip_address user_agent
                 [("attempt_number", MStr "locked")]) ;;;
        ret (Response false "Account locked due to too many failed attempts"
               423 (UnlockEta (snd locked)) 423)
      else
        ok <- on_redis (OTPService.verify_otp email otp) ;;
        if negb ok then
          now_locked <- on_redis (RateLimiter.track_failed_attempt email) ;;
          if fst now_locked then
            delay (write_audit_log "OTP_LOCKED" email ip_address user_agent
                     [("reason", MStr "Max failed attempts exceeded")]) ;;;
            ret (Response false "Account locked due to too many failed attempts"
                   423 (UnlockEta (snd now_locked)) 423)
          else
            delay (write_audit_log "OTP_FAILED" email ip_address user_agent []) ;;;
            ret (Response false "Invalid OTP" 400 NoData 400)
        else
          uc <- get_or_create email ;;
          on_redis (RateLimiter.clear_failed_attempts email) ;;;
          t <- now ;;
          let refresh := for_user (fst uc) t in
          delay (write_audit_log "OTP_VERIFIED" email ip_address user_agent
                   [("user_id", MInt (id (fst uc))); ("user_created", MBool (snd uc))]) ;;;
          ret (Response true "OTP verified successfully" 201
                 (Session (fst uc) (snd refresh) (fst refresh)) 201)
  end.

End Handlers.

(** ** [ResetPasswordRequestToken] of password.py

    models.py declares no [ActivationCode]; the record below has the
    fields password.py reads and writes, and the two class methods the
    view calls on it are parameters. *)

Module Password.

Record ActivationCode : Type := Code {
  count : Z;
  code : string;
  expiry_date : Z;
  updated_at : Z;
  verified : bool
}.

Record CustomUser : Type := Row {
  email : string;
  activation_code : option ActivationCode
}.

Record db : Type := Db { rows : list CustomUser; time : Z }.

(** [CustomResponse(success, message, status_code, data)]: the payload
    carries [success] and [message], the status goes to the response. *)
Record CustomResponse : Type := Resp {
  success : bool;
  message : string;
  status : Z;
  data : option string
}.

Section View.

Variable generate_activation_code : db -> string.
Variable default_expiry_date : Z -> Z.

Definition refresh_code (d : db) (a : ActivationCode) : ActivationCode :=
  Code (count a + 1) (generate_activation_code d)
       (default_expiry_date (time d)) (time d)
       (if negb (verified a) then true else verified a).

Definition save (e : string) (a : ActivationCode) (d : db) : db :=
  Db (map (fun u => if String.eqb (email u) e then Row (email u) (Some a) else u)
          (rows d))
     (time d).

Definition ResetPasswordRequestToken_post (email_arg : option string)
  : M db CustomResponse :=
  match email_arg with
  | None => ret (Resp false "Kindly provide the email address." 400 None)
  | Some e =>
      fun d =>
        match filter (fun u => email u = e) (rows d) with
        | [] => (Ok (Resp true "Email address not found!" 404 None), d)
        | [u] =>
            match activation_code u with
            | None => (Raise ObjectDoesNotExist, d)
            | Some a =>
                (Ok (Resp true "A token has been sent to your email." 200 None),
                 save e (refresh_code d a) d)
            end
        | _ :: _ :: _ => (Raise MultipleObjectsReturned, d)
        end
  end.

End View.

End Password.

(** ** [AuditLog] of audit/models.py and the date filter of audit/views.py

    [created_at] and the bounds are instants on one scale; reading a
    bound from its text is [datetime.fromisoformat], a parameter, with
    [None] for the [ValueError] it raises. *)

Module Audit.

Record AuditLog : Type := Log {
  id : Z;
  event : string;
  email : string;
  ip_address : option string;
  user_agent : option string;
  metadata : list (string * meta);
  created_at : Z
}.

Definition EVENT_CHOICES : list (string * string) :=
  [("OTP_REQUESTED", "OTP Requested");
   ("OTP_VERIFIED", "OTP Verified");
   ("OTP_FAILED", "OTP Failed");
   ("OTP_LOCKED", "OTP Locked")].

Section Queryset.

Variable fromisoformat : string -> option Z.

(** [AuditLogViewSet.get_queryset], from the rows of the base queryset
    and the query parameters [from] and [to]. *)
Definition get_queryset (all : list AuditLog) (from_date to_date : option string)
  : list AuditLog :=
  let queryset := all in
  let queryset :=
    match from_date with
    | Some s =>
        if Py.truthy s then
          match fromisoformat s with
          | Some from_dt => filter (fun a => from_dt <= created_at a) queryset
          | None => queryset
          end
        else queryset
    | None => queryset
    end in
  let queryset :=
    match to_date with
    | Some s =>
        if Py.truthy s then
          match fromisoformat s with
          | Some to_dt => filter (fun a => created_at a <= to_dt) queryset
          | None => queryset
          end
        else queryset
    | None => queryset
    end in
  queryset.

End Queryset.

End Audit.

(** ** The permission classes of permissions.py

    [has_permission] returns True or raises [PermissionDenied] with a
    detail. *)

Module Permissions.

Record principal : Type := Principal {
  is_authenticated : bool;
  is_staff : bool;
  is_superuser : bool
}.

Inductive verdict : Type :=
| Granted
| PermissionDenied (detail : string).

Definition AllUsers_has_permission (user : principal) : verdict :=
  if negb (is_authenticated user) then PermissionDenied "Authentication required."
  else Granted.

Definition IsAdminUser_has_permission (user : principal) : verdict :=
  if negb (is_authenticated user) then PermissionDenied "Authentication required."
  else if negb (is_staff user) then PermissionDenied "Admin access required."
  else Granted.

Definition IsSuperUser_has_permission (user : principal) : verdict :=
  if negb (is_authenticated user) then PermissionDenied "Authentication required."
  else if negb (is_superuser user) then PermissionDenied "Superuser access required."
  else Granted.

End Permissions.

(** * Vocabulary of the statements *)

(** The routine that [is_email_rate_limited], [is_ip_rate_limited] and
    [track_failed_attempt] share, at a key, a window and a threshold
    test; the three are shown equal to it below. *)
Definition bump (key : string) (window : Z) (over : Z -> bool) : M Redis.t (bool * Z) :=
  current <- Redis.incr key ;;
  (if current =? 1 then Redis.expire key window else ret false) ;;;
  if over current then
    ttl <- Redis.ttl key ;; ret (true, ttl)
  else ret (false, 0).

(** Remaining seconds of an optional expiry, as TTL reports them. *)
Definition remaining (now : Z) (x : option Z) : Z :=
  match x with
  | Some t => t - now
  | None => -1
  end.

(** The commands one [bump] sends. *)
Definition bump_cmds (key : string) (window : Z) (over : Z -> bool) (current : Z)
  : list Redis.cmd :=
  ([Redis.INCR key]
   ++ (if current =? 1 then [Redis.EXPIRE key window] else [])
   ++ (if over current then [Redis.TTL key] else []))%list.

(** [run pause f ds s]: one call of [f] now, then for each delay of [ds]
    the delay passes and [f] is called again. *)
Fixpoint run {S A} (pause : Z -> S -> S) (f : M S A) (ds : list Z) (s : S)
  : list (outcome A) * S :=
  match ds with
  | [] => let '(o, s1) := f s in ([o], s1)
  | d :: ds' =>
      let '(o, s1) := f s in
      let '(os, s2) := run pause f ds' (pause d s1) in
      (o :: os, s2)
  end.

(** Seconds elapsed over a list of delays. *)
Definition total (ds : list Z) : Z := fold_right Z.add 0 ds.

(** A counter that reads [n] and expires at [x]. *)
Definition counts (r : Redis.t) (key : string) (n : Z) (x : option Z) : Prop :=
  exists e, Redis.live r key = Some e /\ Py.int (Redis.value e) = Some n
            /\ Redis.expiry e = x.

(** Two answers agree when counts and remaining times agree. *)
Ltac same_answer :=
  simpl;
  match goal with
  | |- Some (Ok (if ?o ?a then _ else _)) = Some (Ok (if ?o ?b then _ else _)) =>
      replace b with a by lia;
      destruct (o a); [do 3 f_equal; lia | reflexivity]
  end.


(** Successive calls of [verify_otp]: each step lets some seconds pass
    and then presents a code. *)
Fixpoint attempts (e : string) (steps : list (Z * string)) (r : Redis.t)
  : list (outcome bool) * Redis.t :=
  match steps with
  | [] => ([], r)
  | (d, c) :: rest =>
      let '(o, r1) := OTPService.verify_otp e c (Redis.tick d r) in
      let '(os, r2) := attempts e rest r1 in
      (o :: os, r2)
  end.

(** The counter under [key] is absent or reads at most [n]. *)
Definition low (r : Redis.t) (key : string) (n : Z) : Prop :=
  match Redis.live r key with
  | None => True
  | Some en => exists m, Py.int (Redis.value en) = Some m /\ m <= n
  end.

(** A session: each step lets some seconds pass and then posts a request. *)
Fixpoint serve (post : request -> M world response) (steps : list (Z * request))
    (w : world) : list (outcome response) * world :=
  match steps with
  | [] => ([], w)
  | (d, rq) :: rest =>
      let '(o, w1) := post rq (elapse d w) in
      let '(os, w2) := serve post rest w1 in
      (o :: os, w2)
  end.



(** The key a command works on. *)
Definition cmd_key (c : Redis.cmd) : string :=
  match c with
  | Redis.GET k | Redis.SETEX k _ _ | Redis.INCR k
  | Redis.EXPIRE k _ | Redis.TTL k | Redis.DEL k => k
  end.

(** The command is not about the code record of any identity. *)
Definition off_otp (c : Redis.cmd) : Prop :=
  forall e, cmd_key c <> OTPService.key e.


(** ** Concrete inputs for the examples *)

Module Demo.

(** Stand-ins for the three outside parts: a field that accepts every
    raw value as it is, a generator that returns 0, 1, 2, ... and a token
    library that ignores its arguments. *)
Definition field (raw : string) : option string := Some raw.
Definition draw (i : nat) : nat := i.
Definition tokens (u : user) (t : Z) : string * string := ("refresh", "access").

Definition otp_entry : Redis.entry := Redis.Entry "123456" (Some 1300).

(** Clock at 1000, a code issued for a@x.com, no counters. *)
Definition issued : Redis.t :=
  Redis.Make 1000 {[ OTPService.key "a@x.com" := otp_entry ]} [].

(** The same with five failures on record. *)
Definition locked : Redis.t :=
  Redis.Make 1000
    (<[ RateLimiter.failed_key "a@x.com" := Redis.Entry "5" (Some 1900) ]>
       {[ OTPService.key "a@x.com" := otp_entry ]}) [].

(** The same with three requests counted in the email window. *)
Definition spent : Redis.t :=
  Redis.Make 1000
    (<[ RateLimiter.email_key "a@x.com" := Redis.Entry "3" (Some 1500) ]>
       {[ OTPService.key "a@x.com" := otp_entry ]}) [].

Definition at_ (r : Redis.t) : world := World r [] [] 0.

Definition ask (email : string) : request :=
  Request (Some email) None None (Some "10.0.0.1") (Some "curl").

Definition present (email otp : string) : request :=
  Request (Some email) (Some otp) None (Some "10.0.0.1") (Some "curl").

Definition wrong : Z * request := (1, present "a@x.com" "000000").
Definition right : Z * request := (1, present "a@x.com" "123456").

Definition status_of (o : outcome response) : option Z :=
  match o with
  | Ok resp => Some (status resp)
  | Raise _ => None
  end.

Definition table : Password.db :=
  Password.Db [Password.Row "b@x.com" None] 0.

End Demo.

(** ** Further vocabulary *)

(** After its window has run out, the next call of a counter routine is
    the first of a new window. *)
Definition reopens (f : M Redis.t (bool * Z)) (key : string) (window : Z) : Prop :=
  forall (r : Redis.t) (n t d : Z),
    counts r key n (Some t) -> 0 <= d -> t <= Redis.clock r + d ->
    exists r', f (Redis.tick d r) = (Ok (false, 0), r')
               /\ counts r' key 1 (Some (Redis.clock r + d + window)).

(** The server [r'] has the clock of [r] and holds under every key
    outside [ks] what [r] holds. *)
Definition same_except (ks : list string) (r r' : Redis.t) : Prop :=
  Redis.clock r' = Redis.clock r
  /\ forall k, k ∉ ks -> Redis.keys r' !! k = Redis.keys r !! k.

(** No code equal to [otp] is on record for [e], live or not. *)
Definition not_stored (r : Redis.t) (e otp : string) : Prop :=
  forall en, Redis.keys r !! OTPService.key e = Some en -> Redis.value en <> otp.

(** A step of a session that presents for [e] a code that is not on
    record in [r]. *)
Definition failing_step (email_field : string -> option string) (e : string)
    (r : Redis.t) (step : Z * request) : Prop :=
  0 <= fst step
  /\ exists otp, OTPVerifySerializer email_field (snd step) = inl (e, otp)
                 /\ not_stored r e otp.

(** HTTP status of an outcome; none when the view raised. *)
Definition http_status (o : outcome response) : option Z :=
  match o with
  | Ok resp => Some (status resp)
  | Raise _ => None
  end.

(** How the user table answers [get_or_create] for [e] at time [now]:
    the one row with that email, or a new row when there is none and the
    username is free. *)
Definition resolves (us : list user) (e : string) (now : Z) (u : user)
    (created : bool) : Prop :=
  (created = false /\ filter (fun v => email v = e) us = [u])
  \/ (created = true
      /\ filter (fun v => email v = e) us = []
      /\ existsb (fun v => String.eqb (username v) e) us = false
      /\ u = User (next_id us) e e "" "" true now).

(** Goals [k ∉ ks] and [k <> k'] from hypotheses of the same kind. *)
Ltac notin :=
  repeat match goal with
         | H : _ ∉ _ :: _ |- _ => apply not_elem_of_cons in H as [? H]
         end;
  first [ congruence
        | repeat (apply not_elem_of_cons; split; [congruence|]);
          apply not_elem_of_nil ].

(** The results [OTPVerifyView.post] can have on a request validated to
    the identity [e]. *)
Inductive verify_shape (for_user : user -> Z -> string * string) (e : string)
    (ip : option string) (ua : string) (w : world)
  : outcome response -> world -> Prop :=
| verify_raised ex r' :
    same_except [OTPService.key e; RateLimiter.failed_key e] (redis w) r' ->
    verify_shape for_user e ip ua w (Raise ex)
      (World r' (users w) (queue w) (drawn w))
| verify_locked eta md r' :
    same_except [OTPService.key e; RateLimiter.failed_key e] (redis w) r' ->
    Redis.keys r' !! OTPService.key e = Redis.keys (redis w) !! OTPService.key e ->
    verify_shape for_user e ip ua w
      (Ok (Response false "Account locked due to too many failed attempts" 423
             (UnlockEta eta) 423))
      (World r' (users w) (queue w ++ [write_audit_log "OTP_LOCKED" e ip ua md])
         (drawn w))
| verify_failed r' :
    same_except [OTPService.key e; RateLimiter.failed_key e] (redis w) r' ->
    Redis.keys r' !! OTPService.key e = Redis.keys (redis w) !! OTPService.key e ->
    verify_shape for_user e ip ua w
      (Ok (Response false "Invalid OTP" 400 NoData 400))
      (World r' (users w) (queue w ++ [write_audit_log "OTP_FAILED" e ip ua []])
         (drawn w))
| verify_opened u created r' :
    same_except [OTPService.key e; RateLimiter.failed_key e] (redis w) r' ->
    resolves (users w) e (Redis.clock (redis w)) u created ->
    verify_shape for_user e ip ua w
      (Ok (Response true "OTP verified successfully" 201
             (Session u (snd (for_user u (Redis.clock (redis w))))
                        (fst (for_user u (Redis.clock (redis w))))) 201))
      (World r' (if created then (users w ++ [u])%list else users w)
         (queue w ++ [write_audit_log "OTP_VERIFIED" e ip ua
                        [("user_id", MInt (id u)); ("user_created", MBool created)]])
         (drawn w)).

(** The results [OTPRequestView.post] can have on a request validated to
    the identity [e]. *)
Inductive request_shape (draw : nat -> nat) (e : string) (ip : option string)
    (ua : string) (w : world) : outcome response -> world -> Prop :=
| request_raised ex r' :
    same_except [RateLimiter.email_key e; RateLimiter.ip_key ip] (redis w) r' ->
    request_shape draw e ip ua w (Raise ex)
      (World r' (users w) (queue w) (drawn w))
| request_email_limited eta r' :
    same_except [RateLimiter.email_key e] (redis w) r' ->
    request_shape draw e ip ua w
      (Ok (Response false "Too many OTP requests. Please try again later." 429
             (RetryAfter eta) 429))
      (World r' (users w)
         (queue w ++ [write_audit_log "OTP_REQUESTED" e ip ua
                        [("reason", MStr "Email rate limit exceeded")]])
         (drawn w))
| request_ip_limited eta r' :
    same_except [RateLimiter.email_key e; RateLimiter.ip_key ip] (redis w) r' ->
    request_shape draw e ip ua w
      (Ok (Response false
             "Too many OTP requests from this IP. Please try again later." 429
             (RetryAfter eta) 429))
      (World r' (users w)
         (queue w ++ [write_audit_log "OTP_REQUESTED" e ip ua
                        [("reason", MStr "IP rate limit exceeded")]])
         (drawn w))
| request_sent r' :
    same_except [RateLimiter.email_key e; RateLimiter.ip_key ip; OTPService.key e]
      (redis w) r' ->
    Redis.keys r' !! OTPService.key e
    = Some (Redis.Entry (OTPService.generate_otp draw (drawn w))
              (Some (Redis.clock (redis w) + OTPService.OTP_EXPIRY_SECONDS))) ->
    request_shape draw e ip ua w
      (Ok (Response true "OTP sent to your email" 202
             (Sent e OTPService.OTP_EXPIRY_SECONDS) 202))
      (World r' (users w)
         (queue w ++ [send_otp_email e (OTPService.generate_otp draw (drawn w));
                      write_audit_log "OTP_REQUESTED" e ip ua []])
         (drawn w + OTPService.OTP_LENGTH)%nat).

(** The event the audit trail expects for a status of the verify
    endpoint. *)
Definition verify_event (status : Z) : string :=
  if status =? 201 then "OTP_VERIFIED"
  else if status =? 423 then "OTP_LOCKED"
  else "OTP_FAILED".


(** The instant a query parameter stands for, when it is given, not
    empty and readable. *)
Definition bound (fromisoformat : string -> option Z) (p : option string)
  : option Z :=
  match p with
  | Some s => if Py.truthy s then fromisoformat s else None
  | None => None
  end.

(** ** More concrete inputs *)

Module Sample.

(** One request counted for a@x.com and ten for the address 10.0.0.1. *)
Definition crowded : Redis.t :=
  Redis.Make 1000
    (<[ RateLimiter.ip_key (Some "10.0.0.1") := Redis.Entry "10" (Some 4000) ]>
       {[ RateLimiter.email_key "a@x.com" := Redis.Entry "1" (Some 1500) ]}) [].

(** The user a first verification of a@x.com creates at time [t]. *)
Definition newcomer (t : Z) : user := User 1 "a@x.com" "a@x.com" "" "" true t.

(** A row that holds a@x.com as username under another email. *)
Definition renamed : user := User 7 "a@x.com" "b@x.com" "" "" true 0.

Definition opened : response :=
  Response true "OTP verified successfully" 201
    (Session (newcomer 1000) "access" "refresh") 201.

Definition forwarded : request :=
  Request None None (Some " 1.2.3.4 , 5.6.7.8") (Some "10.0.0.1") None.


(** A stand-in for [datetime.fromisoformat] that reads a number. *)
Definition parse (s : string) : option Z := Py.int s.

Definition row (n t : Z) : Audit.AuditLog :=
  Audit.Log n "OTP_FAILED" "a@x.com" (Some "10.0.0.1") None [] t.

Definition rows : list Audit.AuditLog := [row 1 5; row 2 15; row 3 25].

End Sample.

(** * Properties *)

(** ** Integers as Redis stores them *)

Lemma to_int_not_nil (n : Z) : Z.to_int n <> Pos Nil /\ Z.to_int n <> Neg Nil.
Proof.
  destruct n as [|p|p]; simpl; split; try discriminate;
    intros [= H]; exact (DecimalPos.Unsigned.to_uint_nonnil p H).
Qed.

Lemma int_str (n : Z) : Py.int (Py.str n) = Some n.
Proof.
  unfold Py.int, Py.str.
  destruct (to_int_not_nil n) as [Hp Hn].
  rewrite (NilZero.isi _ Hp Hn). f_equal. apply DecimalZ.of_to.
Qed.

Lemma truthy_str (n : Z) : Py.truthy (Py.str n) = true.
Proof.
  pose proof (int_str n) as H.
  destruct (Py.str n) eqn:E; [discriminate H | reflexivity].
Qed.

(** ** The key spaces do not meet *)

Lemma otp_key_not_email e e' : OTPService.key e <> RateLimiter.email_key e'.
Proof. discriminate. Qed.

Lemma otp_key_not_ip e ip : OTPService.key e <> RateLimiter.ip_key ip.
Proof. discriminate. Qed.

Lemma otp_key_not_failed e e' : OTPService.key e <> RateLimiter.failed_key e'.
Proof. discriminate. Qed.

Lemma failed_key_not_email e e' : RateLimiter.failed_key e <> RateLimiter.email_key e'.
Proof. discriminate. Qed.

Lemma failed_key_not_ip e ip : RateLimiter.failed_key e <> RateLimiter.ip_key ip.
Proof. discriminate. Qed.

Lemma email_key_not_ip e ip : RateLimiter.email_key e <> RateLimiter.ip_key ip.
Proof. unfold RateLimiter.email_key, RateLimiter.ip_key. simpl. intros [= H]. Qed.

(** ** What the Redis commands see *)

Section RedisFacts.

Import Redis.

Lemma live_record c r k : live (record c r) k = live r k.
Proof. reflexivity. Qed.

Lemma live_put_eq k e r :
  live (put k e r) k = if expired (clock r) e then None else Some e.
Proof. unfold live, put; simpl. by rewrite lookup_insert_eq. Qed.

Lemma live_put_ne k k' e r : k <> k' -> live (put k e r) k' = live r k'.
Proof. intros H. unfold live, put; simpl. by rewrite lookup_insert_ne. Qed.

Lemma live_drop_eq k r : live (drop k r) k = None.
Proof. unfold live, drop; simpl. by rewrite lookup_delete_eq. Qed.


Lemma live_not_expired r k e : live r k = Some e -> expired (clock r) e = false.
Proof.
  unfold live. destruct (keys r !! k) as [e'|]; [|discriminate].
  destruct (expired (clock r) e') eqn:E; [discriminate|]. by intros [= <-].
Qed.

Lemma live_lookup r k e : live r k = Some e -> keys r !! k = Some e.
Proof.
  unfold live. destruct (keys r !! k) as [e'|]; [|discriminate].
  destruct (expired (clock r) e'); [discriminate|]. by intros [= <-].
Qed.

(** A key outlives a delay that ends before its expiry. *)
Lemma live_tick r k v x d :
  live r k = Some (Entry v (Some x)) -> 0 <= d -> clock r + d < x ->
  live (tick d r) k = Some (Entry v (Some x)).
Proof.
  intros H Hd Hx. apply live_lookup in H.
  unfold live, tick; simpl. rewrite H. unfold expired; simpl.
  destruct (Z.leb_spec x (clock r + d)); [lia | reflexivity].
Qed.

Lemma live_tick_entry r k en d :
  live r k = Some en -> 0 <= d ->
  (forall t, expiry en = Some t -> clock r + d < t) ->
  live (tick d r) k = Some en.
Proof.
  intros H Hd Hx. apply live_lookup in H.
  unfold live, tick; simpl. rewrite H. unfold expired.
  destruct (expiry en) as [t|]; [|reflexivity].
  specialize (Hx t eq_refl).
  destruct (Z.leb_spec t (clock r + d)); [lia | reflexivity].
Qed.

(** An absent key stays absent while time passes. *)
Lemma live_tick_none r k d : live r k = None -> 0 <= d -> live (tick d r) k = None.
Proof.
  unfold live, tick; simpl. intros H Hd.
  destruct (keys r !! k) as [e|]; [|reflexivity].
  unfold expired in *. destruct (expiry e) as [x|]; [|discriminate].
  destruct (Z.leb_spec x (clock r)); [|discriminate].
  destruct (Z.leb_spec x (clock r + d)); [reflexivity | lia].
Qed.

End RedisFacts.

(** ** The three counters are one routine *)

Lemma is_email_rate_limited_bump e :
  RateLimiter.is_email_rate_limited e =
  bump (RateLimiter.email_key e) RateLimiter.EMAIL_WINDOW_SECONDS
       (fun c => RateLimiter.EMAIL_LIMIT <? c).
Proof. reflexivity. Qed.

Lemma is_ip_rate_limited_bump ip :
  RateLimiter.is_ip_rate_limited ip =
  bump (RateLimiter.ip_key ip) RateLimiter.IP_WINDOW_SECONDS
       (fun c => RateLimiter.IP_LIMIT <? c).
Proof. reflexivity. Qed.

Lemma track_failed_attempt_bump e :
  RateLimiter.track_failed_attempt e =
  bump (RateLimiter.failed_key e) RateLimiter.FAILED_WINDOW_SECONDS
       (fun c => RateLimiter.FAILED_LIMIT <=? c).
Proof. reflexivity. Qed.

Section BumpFacts.

Import Redis.

Variables (key : string) (window : Z) (over : Z -> bool).
Hypothesis window_pos : 0 < window.

(** First increment of a window: the count is 1 and the expiry is set. *)
Lemma bump_fresh r :
  live r key = None ->
  bump key window over r =
    (Ok (if over 1 then (true, window) else (false, 0)),
     Make (clock r)
          (<[key := Entry (Py.str 1) (Some (clock r + window))]> (keys r))
          (trace r ++ bump_cmds key window over 1)).
Proof.
  intros H. unfold bump, bind, incr. rewrite live_record, H. simpl.
  unfold expire. rewrite live_record, live_put_eq. simpl.
  destruct (Z.leb_spec window 0) as [?|_]; [lia|].
  unfold bump_cmds; simpl.
  destruct (over 1); simpl.
  - unfold ttl. rewrite !live_record, live_put_eq. unfold expired; simpl.
    destruct (Z.leb_spec (clock r + window) (clock r)); [lia|]. simpl.
    unfold put, record; simpl. rewrite insert_insert_eq.
    rewrite <- !app_assoc. simpl. unfold ret.
    do 3 f_equal. lia.
  - unfold ret, put, record; simpl. rewrite insert_insert_eq.
    by rewrite <- !app_assoc.
Qed.

(** An increment inside a window: the count grows by one; the expiry
    is touched only when the new count is 1. *)
Lemma bump_live r e n :
  live r key = Some e -> Py.int (value e) = Some n ->
  let x' := if n + 1 =? 1 then Some (clock r + window) else expiry e in
  bump key window over r =
    (Ok (if over (n + 1) then (true, remaining (clock r) x') else (false, 0)),
     Make (clock r)
          (<[key := Entry (Py.str (n + 1)) x']> (keys r))
          (trace r ++ bump_cmds key window over (n + 1))).
Proof.
  intros H Hn x'. pose proof (live_not_expired _ _ _ H) as Hexp.
  unfold bump, bind, incr. rewrite live_record, H, Hn. simpl.
  assert (Hlive : forall c, live (record c (put key (Entry (Py.str (n + 1)) (expiry e))
                          (record (INCR key) r))) key
                 = Some (Entry (Py.str (n + 1)) (expiry e))).
  { intros c. rewrite live_record, live_put_eq. simpl.
    unfold expired in *; simpl. by rewrite Hexp. }
  unfold bump_cmds, x'. destruct (n + 1 =? 1) eqn:E1.
  - unfold expire. rewrite Hlive.
    destruct (Z.leb_spec window 0) as [?|_]; [lia|]. simpl.
    destruct (over (n + 1)); simpl.
    + unfold ttl. rewrite !live_record, live_put_eq. unfold expired; simpl.
      destruct (Z.leb_spec (clock r + window) (clock r)); [lia|]. simpl.
      unfold put, record; simpl. rewrite insert_insert_eq.
      by rewrite <- !app_assoc.
    + unfold ret, put, record; simpl. rewrite insert_insert_eq.
      by rewrite <- !app_assoc.
  - unfold ret at 1. simpl. destruct (over (n + 1)); simpl.
    + unfold ttl. rewrite Hlive. simpl.
      unfold put, record; simpl. rewrite <- !app_assoc. simpl.
      by destruct (expiry e).
    + reflexivity.
Qed.

(** A live key whose value is no integer makes INCR fail. *)
Lemma bump_garbage r e :
  live r key = Some e -> Py.int (value e) = None ->
  bump key window over r = (Raise ResponseError, record (INCR key) r).
Proof.
  intros H Hn. unfold bump, bind, incr. by rewrite live_record, H, Hn.
Qed.

End BumpFacts.

(** ** Runs of calls with pauses *)

Lemma total_nonneg (ds : list Z) : Forall (fun d => 0 <= d) ds -> 0 <= total ds.
Proof. induction 1 as [|d ds Hd _ IH]; simpl; lia. Qed.



Section Windows.

Import Redis.

Variables (key : string) (window : Z) (over : Z -> bool).
Hypothesis window_pos : 0 < window.

Lemma counts_insert r n x tr :
  (forall t, x = Some t -> clock r < t) ->
  counts (Make (clock r) (<[key := Entry (Py.str n) x]> (keys r)) tr) key n x.
Proof.
  intros Hx. exists (Entry (Py.str n) x). split; [|split].
  - unfold live; simpl. rewrite lookup_insert_eq. unfold expired; simpl.
    destruct x as [t|]; [|reflexivity].
    specialize (Hx t eq_refl). destruct (Z.leb_spec t (clock r)); [lia|reflexivity].
  - apply int_str.
  - reflexivity.
Qed.

Lemma counts_tick r n t d :
  counts r key n (Some t) -> 0 <= d -> clock r + d < t ->
  counts (tick d r) key n (Some t).
Proof.
  intros (e & He & Hn & Hx) Hd Ht. exists e. split; [|done].
  destruct e as [v x]; simpl in *; subst x. by apply live_tick.
Qed.

(** Inside a window that has seen [n >= 1] calls and ends at [t]: call
    number [i] of a run answers by the count [n + 1 + i] and by the
    time left, and the run leaves the count at [n + 1 + length ds]. *)
Lemma run_inside ds : forall r n t,
  counts r key n (Some t) -> 1 <= n ->
  Forall (fun d => 0 <= d) ds -> clock r + total ds < t ->
  let res := run tick (bump key window over) ds r in
  (forall i, (i <= length ds)%nat ->
     fst res !! i =
       Some (Ok (if over (n + 1 + Z.of_nat i)
                 then (true, t - (clock r + total (take i ds)))
                 else (false, 0))))
  /\ counts (snd res) key (n + 1 + Z.of_nat (length ds)) (Some t)
  /\ clock (snd res) = clock r + total ds.
Proof.
  induction ds as [|d ds IH]; intros r n t (e & He & Hn & Hx) Hn1 Hds Ht; simpl in *.
  - rewrite (bump_live key window over window_pos r e n He Hn).
    destruct (Z.eqb_spec (n + 1) 1) as [?|_]; [lia|]. rewrite Hx. simpl.
    split; [|split].
    + intros [|i] Hi; [|lia]. same_answer.
    + replace (n + 1 + Z.of_nat 0) with (n + 1) by lia.
      apply counts_insert; simpl; intros ? [= <-]; lia.
    + lia.
  - inversion Hds as [|? ? Hd Hds']; subst.
    pose proof (total_nonneg ds Hds').
    rewrite (bump_live key window over window_pos r e n He Hn).
    destruct (Z.eqb_spec (n + 1) 1) as [?|_]; [lia|]. rewrite Hx.
    set (r1 := Make _ _ _).
    assert (H1 : counts (tick d r1) key (n + 1) (Some t)).
    { apply counts_tick; [|lia|simpl; lia].
      apply counts_insert; simpl; intros ? [= <-]; lia. }
    specialize (IH (tick d r1) (n + 1) t H1 ltac:(lia) Hds' ltac:(simpl; lia)).
    destruct (run tick (bump key window over) ds (tick d r1)) as [os r2].
    simpl in *. destruct IH as (IHi & IHc & IHk). split; [|split].
    + intros [|i] Hi; simpl.
      * same_answer.
      * rewrite (IHi i ltac:(lia)). same_answer.
    + replace (n + 1 + Z.of_nat (Datatypes.S (length ds)))
        with (n + 1 + 1 + Z.of_nat (length ds)) by lia. exact IHc.
    + lia.
Qed.

(** A whole window, from a key that does not exist: the first call
    opens it, the others fall under [run_inside]. *)
Lemma run_window ds r :
  live r key = None ->
  Forall (fun d => 0 <= d) ds -> total ds < window ->
  let res := run tick (bump key window over) ds r in
  (forall i, (i <= length ds)%nat ->
     fst res !! i =
       Some (Ok (if over (1 + Z.of_nat i)
                 then (true, window - total (take i ds))
                 else (false, 0))))
  /\ counts (snd res) key (1 + Z.of_nat (length ds)) (Some (clock r + window))
  /\ clock (snd res) = clock r + total ds.
Proof.
  intros Hnone Hds Ht. destruct ds as [|d ds]; simpl in *.
  - rewrite (bump_fresh key window over window_pos r Hnone). simpl.
    split; [|split].
    + intros [|i] Hi; [|lia]. same_answer.
    + apply counts_insert; simpl; intros ? [= <-]; lia.
    + lia.
  - inversion Hds as [|? ? Hd Hds']; subst.
    pose proof (total_nonneg ds Hds').
    rewrite (bump_fresh key window over window_pos r Hnone).
    set (r1 := Make _ _ _).
    assert (H1 : counts (tick d r1) key 1 (Some (clock r + window))).
    { apply counts_tick; [|lia|simpl; lia].
      apply counts_insert; simpl; intros ? [= <-]; lia. }
    pose proof (run_inside ds (tick d r1) 1 (clock r + window) H1 ltac:(lia) Hds'
                  ltac:(simpl; lia)) as IH.
    destruct (run tick (bump key window over) ds (tick d r1)) as [os r2].
    simpl in *. destruct IH as (IHi & IHc & IHk). split; [|split].
    + intros [|i] Hi; simpl.
      * same_answer.
      * rewrite (IHi i ltac:(lia)). same_answer.
    + replace (1 + Z.of_nat (Datatypes.S (length ds)))
        with (1 + 1 + Z.of_nat (length ds)) by lia. exact IHc.
    + lia.
Qed.

End Windows.

(** ** Rate limit and lockout thresholds *)


(** C2. Inside one window, [track_failed_attempt] answers (False, 0) at
    the first four failures of an identity, where the count after the
    increment is 1 to 4, and answers True from the fifth failure on. *)
Theorem track_failed_attempt_threshold (e : string) (r : Redis.t) (ds : list Z) :
  Redis.live r (RateLimiter.failed_key e) = None ->
  Forall (fun d => 0 <= d) ds ->
  total ds < RateLimiter.FAILED_WINDOW_SECONDS ->
  let res := run Redis.tick (RateLimiter.track_failed_attempt e) ds r in
  (forall i, (i <= length ds)%nat ->
     exists eta,
       fst res !! i = Some (Ok (negb (i <? 4)%nat, eta))
       /\ eta = if (i <? 4)%nat then 0
                else RateLimiter.FAILED_WINDOW_SECONDS - total (take i ds))
  /\ counts (snd res) (RateLimiter.failed_key e) (Z.of_nat (S (length ds)))
            (Some (Redis.clock r + RateLimiter.FAILED_WINDOW_SECONDS)).
Proof.
  intros Hnone Hds Ht res. subst res. rewrite track_failed_attempt_bump.
  pose proof (run_window (RateLimiter.failed_key e) RateLimiter.FAILED_WINDOW_SECONDS
                (fun c => RateLimiter.FAILED_LIMIT <=? c) ltac:(reflexivity)
                ds r Hnone Hds Ht) as (Hi & Hc & _).
  split.
  - intros i Hle. rewrite (Hi i Hle). unfold RateLimiter.FAILED_LIMIT.
    destruct (Z.leb_spec 5 (1 + Z.of_nat i)); destruct (Nat.ltb_spec i 4);
      try lia; eexists; split; reflexivity.
  - replace (Z.of_nat (S (length ds))) with (1 + Z.of_nat (length ds)) by lia.
    exact Hc.
Qed.



(** ** One-time codes *)

Lemma generate_otp_length draw from :
  String.length (OTPService.generate_otp draw from) = OTPService.OTP_LENGTH.
Proof. reflexivity. Qed.

Lemma length_truthy s : String.length s = OTPService.OTP_LENGTH -> Py.truthy s = true.
Proof. by destruct s. Qed.

(** [verify_otp] by cases on what GET returns. *)
Lemma verify_otp_cases e otp r :
  OTPService.verify_otp e otp r =
    match Redis.live r (OTPService.key e) with
    | Some en =>
        if (Py.truthy (Redis.value en) && String.eqb (Redis.value en) otp)%bool
        then (Ok true,
              Redis.drop (OTPService.key e)
                (Redis.record (Redis.DEL (OTPService.key e))
                   (Redis.record (Redis.GET (OTPService.key e)) r)))
        else (Ok false, Redis.record (Redis.GET (OTPService.key e)) r)
    | None => (Ok false, Redis.record (Redis.GET (OTPService.key e)) r)
    end.
Proof.
  unfold OTPService.verify_otp, bind, Redis.get. simpl. rewrite live_record.
  destruct (Redis.live r (OTPService.key e)) as [en|] eqn:E; simpl; [|reflexivity].
  destruct (Py.truthy (Redis.value en)); simpl; [|reflexivity].
  destruct (String.eqb (Redis.value en) otp); simpl; [|reflexivity].
  unfold Redis.del. rewrite !live_record, E. reflexivity.
Qed.

(** C4. With an issued code stored for an identity, [verify_otp] with
    exactly that code returns True and deletes the record; the same call
    made again returns False, and so does any later call until a new code
    is stored. *)
Theorem verify_otp_one_time (e c : string) (x : option Z) (r : Redis.t) :
  Redis.live r (OTPService.key e) = Some (Redis.Entry c x) ->
  String.length c = OTPService.OTP_LENGTH ->
  exists r1,
    OTPService.verify_otp e c r = (Ok true, r1)
    /\ Redis.keys r1 !! OTPService.key e = None
    /\ fst (OTPService.verify_otp e c r1) = Ok false
    /\ (forall d otp, 0 <= d ->
          fst (OTPService.verify_otp e otp (Redis.tick d r1)) = Ok false).
Proof.
  intros Hlive Hlen. rewrite verify_otp_cases, Hlive. simpl.
  rewrite (length_truthy c Hlen), String.eqb_refl. simpl.
  eexists. split; [reflexivity|].
  split; [apply lookup_delete_eq|].
  split.
  - rewrite verify_otp_cases. simpl. by rewrite live_drop_eq.
  - intros d otp Hd. rewrite verify_otp_cases. simpl.
    rewrite live_tick_none; [reflexivity | apply live_drop_eq | exact Hd].
Qed.

(** C5. With a code stored for an identity, [verify_otp] with any other
    code returns False and leaves the store as it was; after any number
    of such attempts, made before the stored code expires, the stored code
    is still there and the right code is accepted. *)
Theorem wrong_code_keeps_otp (e c : string) (x : option Z) (r : Redis.t)
    (steps : list (Z * string)) :
  Redis.live r (OTPService.key e) = Some (Redis.Entry c x) ->
  String.length c = OTPService.OTP_LENGTH ->
  Forall (fun s => 0 <= fst s /\ snd s <> c) steps ->
  (forall t, x = Some t -> Redis.clock r + total (map fst steps) < t) ->
  let res := attempts e steps r in
  fst res = map (fun _ => Ok false) steps
  /\ Redis.keys (snd res) = Redis.keys r
  /\ Redis.clock (snd res) = Redis.clock r + total (map fst steps)
  /\ Redis.live (snd res) (OTPService.key e) = Some (Redis.Entry c x)
  /\ fst (OTPService.verify_otp e c (snd res)) = Ok true.
Proof.
  intros Hlive Hlen Hsteps. revert r Hlive.
  induction Hsteps as [|[d w] steps [Hd Hw] Hrest IH]; intros r Hlive Hx; simpl in *.
  - repeat split; try done; [lia|].
    rewrite verify_otp_cases, Hlive. simpl.
    by rewrite (length_truthy c Hlen), String.eqb_refl.
  - assert (Hpos : 0 <= total (map fst steps)).
    { apply total_nonneg, Forall_map. eapply Forall_impl; [exact Hrest|]. by intros ? []. }
    assert (Hlive1 : Redis.live (Redis.tick d r) (OTPService.key e)
                     = Some (Redis.Entry c x)).
    { apply live_tick_entry; [done..|]. simpl. intros t Ht. specialize (Hx t Ht). lia. }
    rewrite verify_otp_cases, Hlive1. simpl.
    assert (String.eqb c w = false) as ->.
    { apply String.eqb_neq. congruence. }
    rewrite andb_false_r.
    specialize (IH (Redis.record (Redis.GET (OTPService.key e)) (Redis.tick d r)) Hlive1).
    destruct (attempts e steps _) as [os r2]. simpl in *.
    destruct IH as (-> & -> & -> & IH4 & IH5).
    { intros t Ht. specialize (Hx t Ht). lia. }
    repeat split; try done. lia.
Qed.

(** ** The verify endpoint *)

Lemma int_truthy s n : Py.int s = Some n -> Py.truthy s = true.
Proof. by destruct s. Qed.

(** [is_email_locked] by cases on what GET returns. *)
Lemma is_email_locked_cases e r :
  RateLimiter.is_email_locked e r =
    match Redis.live r (RateLimiter.failed_key e) with
    | None => (Ok (false, 0), Redis.record (Redis.GET (RateLimiter.failed_key e)) r)
    | Some en =>
        if negb (Py.truthy (Redis.value en))
        then (Ok (false, 0), Redis.record (Redis.GET (RateLimiter.failed_key e)) r)
        else match Py.int (Redis.value en) with
             | None => (Raise ValueError,
                        Redis.record (Redis.GET (RateLimiter.failed_key e)) r)
             | Some n =>
                 if RateLimiter.FAILED_LIMIT <=? n
                 then (Ok (true, remaining (Redis.clock r) (Redis.expiry en)),
                       Redis.record (Redis.TTL (RateLimiter.failed_key e))
                         (Redis.record (Redis.GET (RateLimiter.failed_key e)) r))
                 else (Ok (false, 0),
                       Redis.record (Redis.GET (RateLimiter.failed_key e)) r)
             end
    end.
Proof.
  unfold RateLimiter.is_email_locked, bind, Redis.get. simpl. rewrite live_record.
  destruct (Redis.live r (RateLimiter.failed_key e)) as [en|] eqn:E; simpl; [|reflexivity].
  destruct (Py.truthy (Redis.value en)); simpl; [|reflexivity].
  destruct (Py.int (Redis.value en)) as [n|]; [|reflexivity].
  destruct (RateLimiter.FAILED_LIMIT <=? n); [|reflexivity].
  unfold Redis.ttl. rewrite !live_record, E. simpl.
  by destruct (Redis.expiry en).
Qed.

Lemma clear_failed_attempts_eq e r :
  RateLimiter.clear_failed_attempts e r =
    (Ok true, Redis.drop (RateLimiter.failed_key e)
                (Redis.record (Redis.DEL (RateLimiter.failed_key e)) r)).
Proof.
  unfold RateLimiter.clear_failed_attempts, bind, Redis.del. simpl.
  rewrite live_record. by destruct (Redis.live r _).
Qed.


Lemma low_ext r r' key n : Redis.live r' key = Redis.live r key -> low r key n -> low r' key n.
Proof. unfold low. by intros ->. Qed.


Lemma low_absent r key n : Redis.live r key = None -> low r key n.
Proof. unfold low. by intros ->. Qed.

Lemma live_tick_cases r k d :
  0 <= d -> Redis.live (Redis.tick d r) k = None
            \/ Redis.live (Redis.tick d r) k = Redis.live r k.
Proof.
  intros Hd. unfold Redis.live, Redis.tick; simpl.
  destruct (Redis.keys r !! k) as [en|]; [|by left].
  unfold Redis.expired. destruct (Redis.expiry en) as [x|]; [|by right].
  destruct (Z.leb_spec x (Redis.clock r + d)); [by left|].
  destruct (Z.leb_spec x (Redis.clock r)); [lia | by right].
Qed.

Lemma low_tick r key n d : 0 <= d -> low r key n -> low (Redis.tick d r) key n.
Proof.
  intros Hd H. destruct (live_tick_cases r key d Hd) as [E|E].
  - by apply low_absent.
  - by apply (low_ext r).
Qed.


(** Below the threshold [is_email_locked] reports no lock. *)
Lemma is_email_locked_low e r n :
  low r (RateLimiter.failed_key e) n -> n < RateLimiter.FAILED_LIMIT ->
  RateLimiter.is_email_locked e r =
    (Ok (false, 0), Redis.record (Redis.GET (RateLimiter.failed_key e)) r).
Proof.
  intros Hlow Hn. rewrite is_email_locked_cases. unfold low in Hlow.
  destruct (Redis.live r (RateLimiter.failed_key e)) as [en|]; [|reflexivity].
  destruct Hlow as (m & Hm & Hle). rewrite Hm, (int_truthy _ _ Hm). simpl.
  destruct (Z.leb_spec RateLimiter.FAILED_LIMIT m); [lia | reflexivity].
Qed.

Section VerifyView.

Variable email_field : string -> option string.
Variable for_user : user -> Z -> string * string.

Local Abbreviation verify_post := (OTPVerifyView_post email_field for_user).

(** C3. When the failure counter of an identity is at the threshold or
    above and has not expired, a verify request for it is answered 423
    at once, whatever code it presents: the only commands sent are the
    GET and the TTL of the failure counter, so the code record is
    neither read nor deleted, and no key changes, so the counter is not
    incremented. *)
Theorem locked_verify_rejected (rq : request) (w : world) (e otp : string)
    (n : Z) (x : option Z) :
  OTPVerifySerializer email_field rq = inl (e, otp) ->
  counts (redis w) (RateLimiter.failed_key e) n x ->
  RateLimiter.FAILED_LIMIT <= n ->
  verify_post rq w =
    (Ok (Response false "Account locked due to too many failed attempts" 423
           (UnlockEta (remaining (Redis.clock (redis w)) x)) 423),
     World (Redis.Make (Redis.clock (redis w)) (Redis.keys (redis w))
              (Redis.trace (redis w)
               ++ [Redis.GET (RateLimiter.failed_key e);
                   Redis.TTL (RateLimiter.failed_key e)]))
           (users w)
           (queue w ++ [write_audit_log "OTP_LOCKED" e (get_client_ip rq)
                          (get_client_user_agent rq)
                          [("attempt_number", MStr "locked")]])
           (drawn w)).
Proof.
  intros Hser (en & Hlive & Hn & Hx) Hlim.
  unfold OTPVerifyView_post. rewrite Hser. unfold bind at 1, on_redis at 1.
  rewrite is_email_locked_cases, Hlive, Hn, (int_truthy _ _ Hn). simpl.
  destruct (Z.leb_spec RateLimiter.FAILED_LIMIT n); [|lia]. simpl.
  unfold bind, delay, ret, Redis.record; simpl.
  rewrite Hx, <- app_assoc. reflexivity.
Qed.






End VerifyView.

(** ** The request endpoint *)

(** Whatever the state, an increment keeps the clock, works on its own
    key only and sends commands for that key only. *)
Lemma bump_frame key window over r :
  0 < window ->
  exists o r', bump key window over r = (o, r')
    /\ Redis.clock r' = Redis.clock r
    /\ (forall k, k <> key -> Redis.keys r' !! k = Redis.keys r !! k)
    /\ exists cs, Redis.trace r' = (Redis.trace r ++ cs)%list
                  /\ Forall (fun c => cmd_key c = key) cs.
Proof.
  intros Hw. destruct (Redis.live r key) as [en|] eqn:E.
  - destruct (Py.int (Redis.value en)) as [n|] eqn:En.
    + rewrite (bump_live key window over Hw r en n E En).
      do 2 eexists. split; [reflexivity|]. simpl. split; [done|]. split.
      * intros k Hk. by rewrite lookup_insert_ne.
      * eexists. split; [reflexivity|]. unfold bump_cmds.
        destruct (n + 1 =? 1); destruct (over (n + 1)); repeat constructor.
    + rewrite (bump_garbage key window over r en E En).
      do 2 eexists. split; [reflexivity|]. simpl. split; [done|]. split; [done|].
      eexists. split; [reflexivity|]. repeat constructor.
  - rewrite (bump_fresh key window over Hw r E).
    do 2 eexists. split; [reflexivity|]. simpl. split; [done|]. split.
    + intros k Hk. by rewrite lookup_insert_ne.
    + eexists. split; [reflexivity|]. unfold bump_cmds. simpl.
      destruct (over 1); repeat constructor.
Qed.

Section RequestView.

Variable email_field : string -> option string.
Variable draw : nat -> nat.

Local Abbreviation request_post := (OTPRequestView_post email_field draw).

(** C8. A request answered 429, by the email limit or by the address
    limit, has generated no code and has left every code record as it
    was: the generator was not called, no command was sent for a code
    key, every code key holds what it held, and the only task queued is
    one audit event. *)
Theorem rate_limited_request_keeps_otp (rq : request) (w w' : world)
    (resp : response) :
  request_post rq w = (Ok resp, w') ->
  status resp = 429 ->
  drawn w' = drawn w
  /\ (forall e, Redis.keys (redis w') !! OTPService.key e
                = Redis.keys (redis w) !! OTPService.key e)
  /\ (exists cs, Redis.trace (redis w') = (Redis.trace (redis w) ++ cs)%list
                 /\ Forall off_otp cs)
  /\ exists e ip ua md,
       queue w' = (queue w ++ [write_audit_log "OTP_REQUESTED" e ip ua md])%list.
Proof.
  unfold OTPRequestView_post.
  destruct (OTPRequestSerializer email_field rq) as [e|errs].
  2:{ unfold ret. intros [= <- <-]. discriminate. }
  unfold bind at 1, on_redis at 1. rewrite is_email_rate_limited_bump.
  destruct (bump_frame (RateLimiter.email_key e) RateLimiter.EMAIL_WINDOW_SECONDS
              (fun c => RateLimiter.EMAIL_LIMIT <? c) (redis w) ltac:(reflexivity))
    as (o1 & r1 & -> & Hc1 & Hk1 & cs1 & Ht1 & Hcs1).
  destruct o1 as [[b1 eta1]|ex]; [|discriminate].
  destruct b1; simpl.
  { unfold bind, delay, ret. simpl. intros [= <- <-] _. simpl.
    split; [done|]. split.
    - intros e'. apply Hk1, otp_key_not_email.
    - split; [|by repeat eexists].
      exists cs1. split; [done|].
      eapply Forall_impl; [exact Hcs1|]. intros c Hc e'. rewrite Hc.
      apply not_eq_sym, otp_key_not_email. }
  unfold bind at 1, on_redis at 1. simpl. rewrite is_ip_rate_limited_bump.
  destruct (bump_frame (RateLimiter.ip_key (get_client_ip rq))
              RateLimiter.IP_WINDOW_SECONDS
              (fun c => RateLimiter.IP_LIMIT <? c) r1 ltac:(reflexivity))
    as (o2 & r2 & -> & Hc2 & Hk2 & cs2 & Ht2 & Hcs2).
  destruct o2 as [[b2 eta2]|ex]; [|discriminate].
  destruct b2; simpl.
  { unfold bind, delay, ret. simpl. intros [= <- <-] _. simpl.
    split; [done|]. split.
    - intros e'. rewrite Hk2; [|apply otp_key_not_ip]. apply Hk1, otp_key_not_email.
    - split; [|by repeat eexists].
      exists (cs1 ++ cs2)%list. split; [by rewrite Ht2, Ht1, app_assoc|].
      apply Forall_app. split.
      + eapply Forall_impl; [exact Hcs1|]. intros c Hc e'. rewrite Hc.
        apply not_eq_sym, otp_key_not_email.
      + eapply Forall_impl; [exact Hcs2|]. intros c Hc e'. rewrite Hc.
        apply not_eq_sym, otp_key_not_ip. }
  unfold bind, generate_otp, on_redis, OTPService.store_otp, bind, Redis.setex,
    delay, ret. simpl. intros [= <- <-]. discriminate.
Qed.

End RequestView.

(** ** Letter case of the email *)




(** ** The reset-token endpoint *)

(** C9. In [ResetPasswordRequestToken.post], an email that matches no
    user row is answered with status 404 and a payload whose success flag
    is true; nothing is written. *)
Theorem unknown_email_404_with_success
    (generate_activation_code : Password.db -> string)
    (default_expiry_date : Z -> Z) (e : string) (d : Password.db) :
  Forall (fun u => Password.email u <> e) (Password.rows d) ->
  exists resp,
    Password.ResetPasswordRequestToken_post generate_activation_code
      default_expiry_date (Some e) d = (Ok resp, d)
    /\ Password.status resp = 404
    /\ Password.success resp = true.
Proof.
  intros Hnone. unfold Password.ResetPasswordRequestToken_post.
  assert (filter (fun u => Password.email u = e) (Password.rows d) = []) as ->.
  { induction Hnone as [|u us Hu _ IH]; [done|].
    rewrite filter_cons. by destruct (decide (Password.email u = e)). }
  eexists. split; [reflexivity|]. done.
Qed.

(** * The theorems at concrete inputs *)


Lemma track_failed_attempt_threshold_witness :
  Redis.live (Redis.empty 1000) (RateLimiter.failed_key "a@x.com") = None
  /\ Forall (fun d => 0 <= d) [10; 20; 30; 40]
  /\ total [10; 20; 30; 40] < RateLimiter.FAILED_WINDOW_SECONDS
  /\ exists eta,
       fst (run Redis.tick (RateLimiter.track_failed_attempt "a@x.com")
              [10; 20; 30; 40] (Redis.empty 1000)) !! 4%nat
       = Some (Ok (true, eta))
       /\ eta = 800.
Proof.
  assert (h1 : Redis.live (Redis.empty 1000) (RateLimiter.failed_key "a@x.com") = None)
    by reflexivity.
  assert (h2 : Forall (fun d => 0 <= d) [10; 20; 30; 40])
    by (repeat constructor; lia).
  assert (h3 : total [10; 20; 30; 40] < RateLimiter.FAILED_WINDOW_SECONDS)
    by reflexivity.
  split; [exact h1|]. split; [exact h2|]. split; [exact h3|].
  exact (proj1 (track_failed_attempt_threshold "a@x.com" (Redis.empty 1000)
                  [10; 20; 30; 40] h1 h2 h3) 4%nat ltac:(simpl; lia)).
Defined.


Lemma verify_otp_one_time_witness :
  Redis.live Demo.issued (OTPService.key "a@x.com") = Some Demo.otp_entry
  /\ String.length "123456" = OTPService.OTP_LENGTH
  /\ exists r1,
       OTPService.verify_otp "a@x.com" "123456" Demo.issued = (Ok true, r1)
       /\ Redis.keys r1 !! OTPService.key "a@x.com" = None
       /\ fst (OTPService.verify_otp "a@x.com" "123456" r1) = Ok false
       /\ (forall d otp, 0 <= d ->
             fst (OTPService.verify_otp "a@x.com" otp (Redis.tick d r1)) = Ok false).
Proof.
  assert (h1 : Redis.live Demo.issued (OTPService.key "a@x.com") = Some Demo.otp_entry)
    by reflexivity.
  assert (h2 : String.length "123456" = OTPService.OTP_LENGTH) by reflexivity.
  split; [exact h1|]. split; [exact h2|].
  exact (verify_otp_one_time "a@x.com" "123456" (Some 1300) Demo.issued h1 h2).
Defined.

Lemma wrong_code_keeps_otp_witness :
  Redis.live Demo.issued (OTPService.key "a@x.com") = Some Demo.otp_entry
  /\ String.length "123456" = OTPService.OTP_LENGTH
  /\ Forall (fun s => 0 <= fst s /\ snd s <> "123456") [(5, "000000"); (7, "654321")]
  /\ (forall t, Some 1300 = Some t ->
        Redis.clock Demo.issued + total (map fst [(5, "000000"); (7, "654321")]) < t)
  /\ let res := attempts "a@x.com" [(5, "000000"); (7, "654321")] Demo.issued in
     fst res = map (fun _ => Ok false) [(5, "000000"); (7, "654321")]
     /\ Redis.keys (snd res) = Redis.keys Demo.issued
     /\ Redis.clock (snd res)
        = Redis.clock Demo.issued + total (map fst [(5, "000000"); (7, "654321")])
     /\ Redis.live (snd res) (OTPService.key "a@x.com") = Some Demo.otp_entry
     /\ fst (OTPService.verify_otp "a@x.com" "123456" (snd res)) = Ok true.
Proof.
  assert (h1 : Redis.live Demo.issued (OTPService.key "a@x.com") = Some Demo.otp_entry)
    by reflexivity.
  assert (h2 : String.length "123456" = OTPService.OTP_LENGTH) by reflexivity.
  assert (h3 : Forall (fun s => 0 <= fst s /\ snd s <> "123456")
                 [(5, "000000"); (7, "654321")]).
  { repeat constructor; simpl; try lia; discriminate. }
  assert (h4 : forall t, Some 1300 = Some t ->
                 Redis.clock Demo.issued
                 + total (map fst [(5, "000000"); (7, "654321")]) < t).
  { intros t [= <-]. reflexivity. }
  split; [exact h1|]. split; [exact h2|]. split; [exact h3|]. split; [exact h4|].
  exact (wrong_code_keeps_otp "a@x.com" "123456" (Some 1300) Demo.issued
           [(5, "000000"); (7, "654321")] h1 h2 h3 h4).
Defined.

Lemma locked_verify_rejected_witness :
  OTPVerifySerializer Demo.field (Demo.present "A@x.com" "123456")
    = inl ("a@x.com", "123456")
  /\ counts (redis (Demo.at_ Demo.locked)) (RateLimiter.failed_key "a@x.com")
            5 (Some 1900)
  /\ RateLimiter.FAILED_LIMIT <= 5
  /\ OTPVerifyView_post Demo.field Demo.tokens (Demo.present "A@x.com" "123456")
       (Demo.at_ Demo.locked)
     = (Ok (Response false "Account locked due to too many failed attempts" 423
              (UnlockEta 900) 423),
        World (Redis.Make 1000 (Redis.keys Demo.locked)
                 [Redis.GET (RateLimiter.failed_key "a@x.com");
                  Redis.TTL (RateLimiter.failed_key "a@x.com")])
              []
              [write_audit_log "OTP_LOCKED" "a@x.com" (Some "10.0.0.1") "curl"
                 [("attempt_number", MStr "locked")]]
              0).
Proof.
  assert (h1 : OTPVerifySerializer Demo.field (Demo.present "A@x.com" "123456")
               = inl ("a@x.com", "123456")) by reflexivity.
  assert (h2 : counts (redis (Demo.at_ Demo.locked))
                 (RateLimiter.failed_key "a@x.com") 5 (Some 1900)).
  { exists (Redis.Entry "5" (Some 1900)). split; [reflexivity|].
    split; reflexivity. }
  assert (h3 : RateLimiter.FAILED_LIMIT <= 5) by discriminate.
  split; [exact h1|]. split; [exact h2|]. split; [exact h3|].
  exact (locked_verify_rejected Demo.field Demo.tokens
           (Demo.present "A@x.com" "123456") (Demo.at_ Demo.locked)
           "a@x.com" "123456" 5 (Some 1900) h1 h2 h3).
Defined.


(** The session of the witness above answers four times 400, then 201,
    then four times 400. *)
Example four_failures_success_four_failures :
  map Demo.status_of
    (fst (serve (OTPVerifyView_post Demo.field Demo.tokens)
            ([Demo.wrong; Demo.wrong; Demo.wrong; Demo.wrong]
             ++ Demo.right :: [Demo.wrong; Demo.wrong; Demo.wrong; Demo.wrong])
            (Demo.at_ Demo.issued)))
  = [Some 400; Some 400; Some 400; Some 400; Some 201;
     Some 400; Some 400; Some 400; Some 400].
Proof. vm_compute. reflexivity. Qed.

(** Without the success in the middle the fifth failure locks. *)
Example five_failures_lock :
  map Demo.status_of
    (fst (serve (OTPVerifyView_post Demo.field Demo.tokens)
            [Demo.wrong; Demo.wrong; Demo.wrong; Demo.wrong; Demo.wrong; Demo.right]
            (Demo.at_ Demo.issued)))
  = [Some 400; Some 400; Some 400; Some 400; Some 423; Some 423].
Proof. vm_compute. reflexivity. Qed.

Lemma rate_limited_request_keeps_otp_witness :
  let w := Demo.at_ Demo.spent in
  let resp := Response false "Too many OTP requests. Please try again later." 429
                (RetryAfter 500) 429 in
  let w' := snd (OTPRequestView_post Demo.field Demo.draw (Demo.ask "a@x.com") w) in
  OTPRequestView_post Demo.field Demo.draw (Demo.ask "a@x.com") w = (Ok resp, w')
  /\ status resp = 429
  /\ drawn w' = drawn w
  /\ (forall e, Redis.keys (redis w') !! OTPService.key e
                = Redis.keys (redis w) !! OTPService.key e)
  /\ (exists cs, Redis.trace (redis w') = (Redis.trace (redis w) ++ cs)%list
                 /\ Forall off_otp cs)
  /\ exists e ip ua md,
       queue w' = (queue w ++ [write_audit_log "OTP_REQUESTED" e ip ua md])%list.
Proof.
  intros w resp w'.
  assert (h1 : OTPRequestView_post Demo.field Demo.draw (Demo.ask "a@x.com") w
               = (Ok resp, w')) by (vm_compute; reflexivity).
  assert (h2 : status resp = 429) by reflexivity.
  split; [exact h1|]. split; [exact h2|].
  exact (rate_limited_request_keeps_otp Demo.field Demo.draw
           (Demo.ask "a@x.com") w w' resp h1 h2).
Defined.


(** A code requested under one spelling of the address is accepted
    under another: the request is answered 202 and the verification 201. *)
Example issued_for_one_case_verified_with_another :
  let '(o1, w1) := OTPRequestView_post Demo.field Demo.draw (Demo.ask "A@X.com")
                     (Demo.at_ (Redis.empty 1000)) in
  let '(o2, _) := OTPVerifyView_post Demo.field Demo.tokens
                    (Demo.present "a@x.COM" "012345") (elapse 5 w1) in
  Demo.status_of o1 = Some 202 /\ Demo.status_of o2 = Some 201.
Proof. vm_compute. split; reflexivity. Qed.

Lemma unknown_email_404_with_success_witness :
  Forall (fun u => Password.email u <> "a@x.com") (Password.rows Demo.table)
  /\ exists resp,
       Password.ResetPasswordRequestToken_post (fun _ => "000000") (fun t => t + 600)
         (Some "a@x.com") Demo.table = (Ok resp, Demo.table)
       /\ Password.status resp = 404
       /\ Password.success resp = true.
Proof.
  assert (h1 : Forall (fun u => Password.email u <> "a@x.com")
                 (Password.rows Demo.table))
    by (repeat constructor; discriminate).
  split; [exact h1|].
  exact (unknown_email_404_with_success (fun _ => "000000") (fun t => t + 600)
           "a@x.com" Demo.table h1).
Defined.

(** * More of the code *)

(** ** Life of a code *)

Lemma store_otp_eq e c r :
  OTPService.store_otp e c r =
    (Ok true,
     Redis.put (OTPService.key e)
       (Redis.Entry c (Some (Redis.clock r + OTPService.OTP_EXPIRY_SECONDS)))
       (Redis.record (Redis.SETEX (OTPService.key e) OTPService.OTP_EXPIRY_SECONDS c) r)).
Proof. reflexivity. Qed.

Lemma live_after_store e c r d :
  0 <= d ->
  Redis.live (Redis.tick d (snd (OTPService.store_otp e c r))) (OTPService.key e)
  = if d <? OTPService.OTP_EXPIRY_SECONDS
    then Some (Redis.Entry c (Some (Redis.clock r + OTPService.OTP_EXPIRY_SECONDS)))
    else None.
Proof.
  intros Hd. rewrite store_otp_eq. unfold Redis.live, Redis.tick, Redis.put. simpl.
  rewrite lookup_insert_eq. unfold Redis.expired, OTPService.OTP_EXPIRY_SECONDS. simpl.
  destruct (Z.leb_spec (Redis.clock r + 300) (Redis.clock r + d));
    destruct (Z.ltb_spec d 300); try lia; reflexivity.
Qed.

(** X1. A code stored by [store_otp] is accepted by [verify_otp] during
    the 300 seconds that follow and at no time after them. *)
Theorem issued_code_lives_for_expiry (e c : string) (r : Redis.t) (d : Z) :
  String.length c = OTPService.OTP_LENGTH ->
  0 <= d ->
  fst (OTPService.verify_otp e c (Redis.tick d (snd (OTPService.store_otp e c r))))
  = Ok (d <? OTPService.OTP_EXPIRY_SECONDS).
Proof.
  intros Hlen Hd. rewrite verify_otp_cases, (live_after_store e c r d Hd).
  destruct (d <? OTPService.OTP_EXPIRY_SECONDS); [|reflexivity]. simpl.
  by rewrite (length_truthy c Hlen), String.eqb_refl.
Qed.

(** X2. Storing a second code for an identity replaces the first: the
    first is refused from then on, also inside its own 300 seconds, and
    the second is accepted for 300 seconds from its own storing. *)
Theorem reissue_replaces_code (e c1 c2 : string) (r : Redis.t) (d1 d2 : Z) :
  String.length c2 = OTPService.OTP_LENGTH ->
  c1 <> c2 ->
  0 <= d1 -> 0 <= d2 < OTPService.OTP_EXPIRY_SECONDS ->
  let r1 := Redis.tick d1 (snd (OTPService.store_otp e c1 r)) in
  let r2 := Redis.tick d2 (snd (OTPService.store_otp e c2 r1)) in
  let '(o1, r3) := OTPService.verify_otp e c1 r2 in
  o1 = Ok false /\ fst (OTPService.verify_otp e c2 r3) = Ok true.
Proof.
  intros Hlen Hne Hd1 [Hd2 Hlt] r1 r2.
  assert (Hlive : Redis.live r2 (OTPService.key e)
                  = Some (Redis.Entry c2
                            (Some (Redis.clock r1 + OTPService.OTP_EXPIRY_SECONDS)))).
  { subst r2. rewrite (live_after_store e c2 r1 d2 Hd2).
    by destruct (Z.ltb_spec d2 OTPService.OTP_EXPIRY_SECONDS); [|lia]. }
  rewrite verify_otp_cases, Hlive. simpl.
  assert (String.eqb c2 c1 = false) as -> by (apply String.eqb_neq; congruence).
  rewrite andb_false_r. split; [reflexivity|].
  rewrite verify_otp_cases. rewrite live_record, Hlive. simpl.
  by rewrite (length_truthy c2 Hlen), String.eqb_refl.
Qed.

(** ** More on the counters *)


Lemma bump_reopens key window over :
  0 < window -> over 1 = false -> reopens (bump key window over) key window.
Proof.
  intros Hw Hover r n t d (en & Hlive & _ & Hx) Hd Ht.
  assert (Hgone : Redis.live (Redis.tick d r) key = None).
  { apply live_lookup in Hlive. unfold Redis.live, Redis.tick. simpl.
    rewrite Hlive. unfold Redis.expired. rewrite Hx.
    by destruct (Z.leb_spec t (Redis.clock r + d)); [|lia]. }
  rewrite (bump_fresh key window over Hw _ Hgone), Hover.
  eexists. split; [reflexivity|].
  apply (counts_insert key (Redis.tick d r)). simpl. intros ? [= <-]. lia.
Qed.

(** X4. When the window of a rate or failure counter has run out, the
    next call finds no counter: it answers (False, 0), counts as the
    first call, and opens a new window of full length from that moment. *)
Theorem windows_reopen_after_expiry :
  (forall e, reopens (RateLimiter.is_email_rate_limited e)
               (RateLimiter.email_key e) RateLimiter.EMAIL_WINDOW_SECONDS)
  /\ (forall ip, reopens (RateLimiter.is_ip_rate_limited ip)
                   (RateLimiter.ip_key ip) RateLimiter.IP_WINDOW_SECONDS)
  /\ (forall e, reopens (RateLimiter.track_failed_attempt e)
                  (RateLimiter.failed_key e) RateLimiter.FAILED_WINDOW_SECONDS).
Proof.
  split; [|split].
  - intros e. rewrite is_email_rate_limited_bump. by apply bump_reopens.
  - intros ip. rewrite is_ip_rate_limited_bump. by apply bump_reopens.
  - intros e. rewrite track_failed_attempt_bump. by apply bump_reopens.
Qed.

(** ** Reading and clearing the lock *)

(** X5. [is_email_locked] only reads: it sends a GET, and a TTL after
    it when it reports a lock, and changes neither a key nor the clock;
    it reports a lock exactly when the failure counter of the identity is
    live and reads 5 or more, with the time the counter has left. *)
Theorem is_email_locked_reads_only (e : string) (r : Redis.t) :
  exists o r', RateLimiter.is_email_locked e r = (o, r')
    /\ Redis.keys r' = Redis.keys r
    /\ Redis.clock r' = Redis.clock r
    /\ (Redis.trace r' = (Redis.trace r ++ [Redis.GET (RateLimiter.failed_key e)])%list
        \/ Redis.trace r' = (Redis.trace r ++ [Redis.GET (RateLimiter.failed_key e);
                                               Redis.TTL (RateLimiter.failed_key e)])%list)
    /\ forall eta, o = Ok (true, eta) <->
         exists n x, counts r (RateLimiter.failed_key e) n x
                     /\ RateLimiter.FAILED_LIMIT <= n
                     /\ eta = remaining (Redis.clock r) x.
Proof.
  rewrite is_email_locked_cases.
  destruct (Redis.live r (RateLimiter.failed_key e)) as [en|] eqn:E.
  - destruct (Py.truthy (Redis.value en)) eqn:Etr; simpl.
    + destruct (Py.int (Redis.value en)) as [n|] eqn:En.
      * destruct (Z.leb_spec RateLimiter.FAILED_LIMIT n) as [Hle|Hlt].
        -- do 2 eexists. split; [reflexivity|]. simpl. split; [done|]. split; [done|].
           split; [right; by rewrite <- app_assoc|].
           intros eta. split.
           ++ intros [= <-]. exists n, (Redis.expiry en). split; [by exists en|]. done.
           ++ intros (n' & x & (en' & He' & Hn' & Hx') & _ & ->).
              rewrite E in He'. injection He' as <-. by rewrite Hx'.
        -- do 2 eexists. split; [reflexivity|]. simpl. split; [done|]. split; [done|].
           split; [by left|]. intros eta. split; [discriminate|].
           intros (n' & x & (en' & He' & Hn' & Hx') & Hle & _).
           rewrite E in He'. injection He' as <-. rewrite En in Hn'.
           injection Hn' as <-. lia.
      * do 2 eexists. split; [reflexivity|]. simpl. split; [done|]. split; [done|].
        split; [by left|]. intros eta. split; [discriminate|].
        intros (n' & x & (en' & He' & Hn' & Hx') & _).
        rewrite E in He'. injection He' as <-. congruence.
    + do 2 eexists. split; [reflexivity|]. simpl. split; [done|]. split; [done|].
      split; [by left|]. intros eta. split; [discriminate|].
      intros (n' & x & (en' & He' & Hn' & Hx') & _).
      rewrite E in He'. injection He' as <-.
      rewrite (int_truthy _ _ Hn') in Etr. discriminate.
  - do 2 eexists. split; [reflexivity|]. simpl. split; [done|]. split; [done|].
    split; [by left|]. intros eta. split; [discriminate|].
    intros (n' & x & (en' & He' & _) & _). congruence.
Qed.

(** X6. A lock counts down and lifts by itself: while the window of a
    counter that reads 5 or more lasts, [is_email_locked] reports the
    lock with the seconds left, and from the end of the window on it
    reports none. *)
Theorem lockout_counts_down_and_lifts (e : string) (r : Redis.t) (n t d : Z) :
  counts r (RateLimiter.failed_key e) n (Some t) ->
  RateLimiter.FAILED_LIMIT <= n ->
  0 <= d ->
  fst (RateLimiter.is_email_locked e (Redis.tick d r))
  = Ok (if Redis.clock r + d <? t then (true, t - (Redis.clock r + d)) else (false, 0)).
Proof.
  intros (en & Hlive & Hn & Hx) Hle Hd. rewrite is_email_locked_cases.
  apply live_lookup in Hlive.
  unfold Redis.live at 1. simpl. rewrite Hlive. unfold Redis.expired. rewrite Hx.
  destruct (Z.leb_spec t (Redis.clock r + d)); destruct (Z.ltb_spec (Redis.clock r + d) t);
    try lia; [reflexivity|].
  rewrite Hn, (int_truthy _ _ Hn). simpl.
  destruct (Z.leb_spec RateLimiter.FAILED_LIMIT n); [|lia]. simpl. by rewrite Hx.
Qed.

(** X7. After [clear_failed_attempts] the identity is not locked and its
    next failure counts as the first; no key of another kind or identity
    is changed. *)
Theorem clear_failed_attempts_unlocks (e : string) (r : Redis.t) :
  let r1 := snd (RateLimiter.clear_failed_attempts e r) in
  fst (RateLimiter.is_email_locked e r1) = Ok (false, 0)
  /\ (exists r2, RateLimiter.track_failed_attempt e r1 = (Ok (false, 0), r2)
                 /\ counts r2 (RateLimiter.failed_key e) 1
                      (Some (Redis.clock r + RateLimiter.FAILED_WINDOW_SECONDS)))
  /\ forall k, k <> RateLimiter.failed_key e ->
               Redis.keys r1 !! k = Redis.keys r !! k.
Proof.
  rewrite clear_failed_attempts_eq. simpl.
  set (r1 := Redis.drop _ _).
  assert (Hgone : Redis.live r1 (RateLimiter.failed_key e) = None) by apply live_drop_eq.
  split; [|split].
  - by rewrite is_email_locked_cases, Hgone.
  - rewrite track_failed_attempt_bump.
    rewrite (bump_fresh (RateLimiter.failed_key e) RateLimiter.FAILED_WINDOW_SECONDS
               (fun c => RateLimiter.FAILED_LIMIT <=? c) ltac:(reflexivity) r1 Hgone).
    simpl. eexists. split; [reflexivity|].
    apply (counts_insert (RateLimiter.failed_key e) r1). simpl. intros ? [= <-].
    unfold RateLimiter.FAILED_WINDOW_SECONDS. lia.
  - intros k Hk. subst r1. simpl. by rewrite lookup_delete_ne.
Qed.

(** ** Frames *)

Lemma same_except_refl ks r : same_except ks r r.
Proof. by split. Qed.

Lemma same_except_trans ks r1 r2 r3 :
  same_except ks r1 r2 -> same_except ks r2 r3 -> same_except ks r1 r3.
Proof.
  intros [Hc1 Hk1] [Hc2 Hk2]. split; [congruence|].
  intros k Hk. by rewrite Hk2, Hk1.
Qed.

Lemma same_except_weaken ks ks' r r' :
  (forall k, k ∉ ks' -> k ∉ ks) -> same_except ks r r' -> same_except ks' r r'.
Proof. intros Hsub [Hc Hk]. split; [done|]. intros k Hk'. by apply Hk, Hsub. Qed.

Lemma same_except_record ks c r : same_except ks r (Redis.record c r).
Proof. by split. Qed.

Lemma same_except_live ks r r' k :
  same_except ks r r' -> k ∉ ks -> Redis.live r' k = Redis.live r k.
Proof. intros [Hc Hk] Hin. unfold Redis.live. by rewrite Hc, Hk. Qed.

Lemma same_except_counts ks r r' k n x :
  same_except ks r r' -> k ∉ ks -> counts r k n x -> counts r' k n x.
Proof.
  intros Hs Hin (en & He & Hn). exists en. by rewrite (same_except_live ks r r' k Hs Hin).
Qed.

Lemma same_except_low ks r r' k n :
  same_except ks r r' -> k ∉ ks -> low r k n -> low r' k n.
Proof. intros Hs Hin. apply low_ext. by apply (same_except_live ks). Qed.

(** The commands of the services and what they leave alone. *)

Lemma is_email_locked_keeps e r :
  same_except [] r (snd (RateLimiter.is_email_locked e r)).
Proof.
  rewrite is_email_locked_cases.
  destruct (Redis.live r _) as [en|]; [|by split].
  destruct (negb _); [by split|].
  destruct (Py.int _) as [n|]; [|by split].
  by destruct (_ <=? n); split.
Qed.

Lemma verify_otp_keeps e otp r :
  exists b r', OTPService.verify_otp e otp r = (Ok b, r')
    /\ same_except [OTPService.key e] r r'.
Proof.
  rewrite verify_otp_cases.
  destruct (Redis.live r (OTPService.key e)) as [en|].
  - destruct (_ && _)%bool; do 2 eexists; (split; [reflexivity|]); split; try done.
    intros k Hk. simpl. rewrite lookup_delete_ne; [done|]. notin.
  - do 2 eexists. split; [reflexivity|]. by split.
Qed.

(** A code that is not on record is refused and nothing is deleted. *)
Lemma verify_otp_not_stored e otp r :
  not_stored r e otp ->
  OTPService.verify_otp e otp r
  = (Ok false, Redis.record (Redis.GET (OTPService.key e)) r).
Proof.
  intros Hns. rewrite verify_otp_cases.
  destruct (Redis.live r (OTPService.key e)) as [en|] eqn:E; [|reflexivity].
  apply live_lookup in E. specialize (Hns en E).
  assert (String.eqb (Redis.value en) otp = false) as -> by by apply String.eqb_neq.
  by rewrite andb_false_r.
Qed.

Lemma clear_failed_attempts_keeps e r :
  same_except [RateLimiter.failed_key e] r (snd (RateLimiter.clear_failed_attempts e r)).
Proof.
  rewrite clear_failed_attempts_eq. split; [done|]. intros k Hk. simpl.
  rewrite lookup_delete_ne; [done|]. notin.
Qed.

Lemma store_otp_keeps e c r :
  same_except [OTPService.key e] r (snd (OTPService.store_otp e c r)).
Proof.
  rewrite store_otp_eq. split; [done|]. intros k Hk. simpl.
  rewrite lookup_insert_ne; [done|]. notin.
Qed.

Section BumpMore.

Variables (key : string) (window : Z) (over : Z -> bool).
Hypothesis window_pos : 0 < window.

(** Whatever the state, [bump] keeps the clock and every other key. *)
Lemma bump_keeps r : same_except [key] r (snd (bump key window over r)).
Proof.
  destruct (bump_frame key window over r window_pos) as (o & r' & -> & Hc & Hk & _).
  split; [done|]. intros k Hin. apply Hk. notin.
Qed.

Lemma bump_absent r :
  Redis.live r key = None ->
  exists r', bump key window over r
             = (Ok (if over 1 then (true, window) else (false, 0)), r')
    /\ same_except [key] r r'
    /\ counts r' key 1 (Some (Redis.clock r + window)).
Proof.
  intros Hnone. pose proof (bump_keeps r) as Hk.
  rewrite (bump_fresh key window over window_pos r Hnone) in *.
  eexists. split; [reflexivity|]. split; [exact Hk|].
  apply counts_insert. simpl. intros ? [= <-]. lia.
Qed.

Lemma bump_counts r n x :
  counts r key n x ->
  let x' := if n + 1 =? 1 then Some (Redis.clock r + window) else x in
  exists r', bump key window over r
             = (Ok (if over (n + 1) then (true, remaining (Redis.clock r) x')
                    else (false, 0)), r')
    /\ same_except [key] r r'
    /\ counts r' key (n + 1) x'.
Proof.
  intros (en & He & Hn & Hx) x'. pose proof (bump_keeps r) as Hk.
  rewrite (bump_live key window over window_pos r en n He Hn) in *.
  rewrite Hx in *. fold x' in Hk |- *.
  eexists. split; [reflexivity|]. split; [exact Hk|].
  pose proof (live_not_expired r key en He) as Hexp.
  unfold Redis.expired in Hexp. rewrite Hx in Hexp.
  apply counts_insert. simpl. intros t Ht. subst x'.
  destruct (n + 1 =? 1); [injection Ht as <-; lia|]. rewrite Ht in Hexp.
  destruct (Z.leb_spec t (Redis.clock r)); [discriminate|lia].
Qed.

(** Below the threshold: the answer is (False, 0). *)
Lemma bump_low r n :
  0 <= n -> (forall m, m <= n -> over (m + 1) = false) ->
  low r key n ->
  exists r', bump key window over r = (Ok (false, 0), r')
    /\ same_except [key] r r'
    /\ low r' key (n + 1).
Proof.
  intros Hn Hover Hlow. unfold low in Hlow.
  destruct (Redis.live r key) as [en|] eqn:E.
  - destruct Hlow as (m & Hm & Hle).
    destruct (bump_counts r m (Redis.expiry en)) as (r' & Hb & Hs & Hc);
      [by exists en|].
    rewrite (Hover m Hle) in Hb. exists r'. split; [done|]. split; [done|].
    destruct Hc as (en' & He' & Hn' & _). unfold low. rewrite He'.
    exists (m + 1). split; [done|lia].
  - destruct (bump_absent r E) as (r' & Hb & Hs & Hc).
    change (over 1) with (over (0 + 1)) in Hb. rewrite (Hover 0 Hn) in Hb. exists r'. split; [done|]. split; [done|].
    destruct Hc as (en' & He' & Hn' & _). unfold low. rewrite He'.
    exists 1. split; [done|lia].
Qed.

End BumpMore.

(** [get_or_create] by cases on the table. *)

Lemma get_or_create_resolves e r us q n u created :
  resolves us e (Redis.clock r) u created ->
  get_or_create e (World r us q n)
  = (Ok (u, created),
     World r (if created then (us ++ [u])%list else us) q n).
Proof.
  unfold get_or_create. simpl. intros [(-> & ->) | (-> & -> & -> & ->)]; reflexivity.
Qed.

(** ** The verify endpoint, branch by branch *)

Lemma not_stored_ext r r' e otp :
  Redis.keys r' !! OTPService.key e = Redis.keys r !! OTPService.key e ->
  not_stored r e otp -> not_stored r' e otp.
Proof. unfold not_stored. by intros ->. Qed.

Section VerifyBranches.

Variable email_field : string -> option string.
Variable for_user : user -> Z -> string * string.

Local Abbreviation verify_post := (OTPVerifyView_post email_field for_user).

(** A validated code has six characters. *)
Lemma validated_otp_length rq e otp :
  OTPVerifySerializer email_field rq = inl (e, otp) ->
  String.length otp = OTPService.OTP_LENGTH.
Proof.
  unfold OTPVerifySerializer.
  destruct (run_field email_field (data_email rq));
    destruct (run_field otp_field (data_otp rq)) as [v|] eqn:E; try discriminate.
  intros [= _ <-]. destruct (data_otp rq) as [raw|]; [|discriminate].
  simpl in E. unfold otp_field in E.
  destruct (String.length (Py.strip raw) =? 6)%nat eqn:El; [|discriminate].
  destruct (Py.isdigit (Py.strip raw)); [|discriminate].
  injection E as <-. by apply Nat.eqb_eq.
Qed.

(** A code that is not on record, for an identity that is not locked:
    the failure is recorded and the answer follows from it. *)
Lemma verify_post_wrong rq w e otp :
  OTPVerifySerializer email_field rq = inl (e, otp) ->
  low (redis w) (RateLimiter.failed_key e) 4 ->
  not_stored (redis w) e otp ->
  verify_post rq w =
    match RateLimiter.track_failed_attempt e
            (Redis.record (Redis.GET (OTPService.key e))
               (Redis.record (Redis.GET (RateLimiter.failed_key e)) (redis w))) with
    | (Ok (true, eta), r') =>
        (Ok (Response false "Account locked due to too many failed attempts" 423
               (UnlockEta eta) 423),
         World r' (users w)
           (queue w ++ [write_audit_log "OTP_LOCKED" e (get_client_ip rq)
                          (get_client_user_agent rq)
                          [("reason", MStr "Max failed attempts exceeded")]])
           (drawn w))
    | (Ok (false, _), r') =>
        (Ok (Response false "Invalid OTP" 400 NoData 400),
         World r' (users w)
           (queue w ++ [write_audit_log "OTP_FAILED" e (get_client_ip rq)
                          (get_client_user_agent rq) []])
           (drawn w))
    | (Raise ex, r') => (Raise ex, World r' (users w) (queue w) (drawn w))
    end.
Proof.
  intros Hser Hlow Hns. unfold OTPVerifyView_post. rewrite Hser.
  unfold bind at 1, on_redis at 1.
  rewrite (is_email_locked_low e (redis w) 4 Hlow ltac:(reflexivity)). simpl.
  unfold bind at 1, on_redis at 1. simpl.
  rewrite verify_otp_not_stored; [|by apply (not_stored_ext (redis w))]. simpl.
  unfold bind at 1, on_redis at 1. simpl.
  destruct (RateLimiter.track_failed_attempt e _) as [[[[] eta]|ex] r']; reflexivity.
Qed.

(** The stored code, for an identity that is not locked and that the
    user table resolves: a session is opened, and the code and the
    failure counter are deleted. *)
Lemma verify_post_accepts rq w e otp x u created :
  OTPVerifySerializer email_field rq = inl (e, otp) ->
  low (redis w) (RateLimiter.failed_key e) 4 ->
  Redis.live (redis w) (OTPService.key e) = Some (Redis.Entry otp x) ->
  resolves (users w) e (Redis.clock (redis w)) u created ->
  exists r',
    verify_post rq w =
      (Ok (Response true "OTP verified successfully" 201
             (Session u (snd (for_user u (Redis.clock (redis w))))
                        (fst (for_user u (Redis.clock (redis w))))) 201),
       World r' (if created then (users w ++ [u])%list else users w)
         (queue w ++ [write_audit_log "OTP_VERIFIED" e (get_client_ip rq)
                        (get_client_user_agent rq)
                        [("user_id", MInt (id u)); ("user_created", MBool created)]])
         (drawn w))
    /\ same_except [OTPService.key e; RateLimiter.failed_key e] (redis w) r'
    /\ Redis.keys r' !! OTPService.key e = None
    /\ Redis.keys r' !! RateLimiter.failed_key e = None.
Proof.
  intros Hser Hlow Hlive Hres. unfold OTPVerifyView_post. rewrite Hser.
  unfold bind at 1, on_redis at 1.
  rewrite (is_email_locked_low e (redis w) 4 Hlow ltac:(reflexivity)). simpl.
  unfold bind at 1, on_redis at 1. simpl.
  rewrite verify_otp_cases, live_record, Hlive. simpl.
  rewrite (length_truthy otp (validated_otp_length rq e otp Hser)), String.eqb_refl.
  simpl. unfold bind at 1.
  erewrite get_or_create_resolves; [|exact Hres]. simpl.
  unfold bind at 1, on_redis at 1. rewrite clear_failed_attempts_eq. simpl.
  unfold bind, now, delay, ret. simpl.
  eexists. split; [reflexivity|]. split; [|split].
  - split; [done|]. intros k Hk. simpl.
    rewrite !lookup_delete_ne; [done | notin | notin].
  - simpl. rewrite lookup_delete_ne; [|apply not_eq_sym, otp_key_not_failed].
    apply lookup_delete_eq.
  - simpl. apply lookup_delete_eq.
Qed.

End VerifyBranches.

Lemma counts_low r key n x m : counts r key n x -> n <= m -> low r key m.
Proof.
  intros (en & He & Hn & _) Hle. unfold low. rewrite He. by exists n.
Qed.

Section Lockout.

Variable email_field : string -> option string.
Variable for_user : user -> Z -> string * string.

Local Abbreviation verify_post := (OTPVerifyView_post email_field for_user).

(** The first failure of a window, after a pause. *)
Lemma failing_request_opens d rq w e otp :
  OTPVerifySerializer email_field rq = inl (e, otp) ->
  not_stored (redis w) e otp -> 0 <= d ->
  Redis.live (redis w) (RateLimiter.failed_key e) = None ->
  exists o w', verify_post rq (elapse d w) = (o, w')
    /\ http_status o = Some 400
    /\ counts (redis w') (RateLimiter.failed_key e) 1
         (Some (Redis.clock (redis w) + d + RateLimiter.FAILED_WINDOW_SECONDS))
    /\ Redis.clock (redis w') = Redis.clock (redis w) + d
    /\ Redis.keys (redis w') !! OTPService.key e
       = Redis.keys (redis w) !! OTPService.key e.
Proof.
  intros Hser Hns Hd Hnone.
  assert (Hnone' : Redis.live (redis (elapse d w)) (RateLimiter.failed_key e) = None)
    by by apply live_tick_none.
  rewrite (verify_post_wrong email_field for_user rq (elapse d w) e otp Hser
             (low_absent _ _ 4 Hnone') Hns).
  rewrite track_failed_attempt_bump.
  destruct (bump_absent (RateLimiter.failed_key e) RateLimiter.FAILED_WINDOW_SECONDS
              (fun c => RateLimiter.FAILED_LIMIT <=? c) ltac:(reflexivity)
              (Redis.record (Redis.GET (OTPService.key e))
                 (Redis.record (Redis.GET (RateLimiter.failed_key e))
                    (redis (elapse d w)))) Hnone')
    as (r' & -> & [Hclk Hkeys] & Hcounts).
  simpl in *. do 2 eexists. split; [reflexivity|]. split; [reflexivity|].
  split; [exact Hcounts|]. split; [exact Hclk|].
  apply Hkeys. apply not_elem_of_cons. split; [apply otp_key_not_failed | notin].
Qed.

(** A later failure inside the window, after a pause: the fifth locks. *)
Lemma failing_request_counts d rq w e otp n t :
  OTPVerifySerializer email_field rq = inl (e, otp) ->
  not_stored (redis w) e otp -> 0 <= d ->
  counts (redis w) (RateLimiter.failed_key e) n (Some t) ->
  1 <= n <= 4 -> Redis.clock (redis w) + d < t ->
  exists o w', verify_post rq (elapse d w) = (o, w')
    /\ http_status o = Some (if n + 1 <? RateLimiter.FAILED_LIMIT then 400 else 423)
    /\ counts (redis w') (RateLimiter.failed_key e) (n + 1) (Some t)
    /\ Redis.clock (redis w') = Redis.clock (redis w) + d
    /\ Redis.keys (redis w') !! OTPService.key e
       = Redis.keys (redis w) !! OTPService.key e.
Proof.
  intros Hser Hns Hd Hc [Hn1 Hn4] Ht.
  assert (Hc' : counts (redis (elapse d w)) (RateLimiter.failed_key e) n (Some t))
    by by apply counts_tick.
  rewrite (verify_post_wrong email_field for_user rq (elapse d w) e otp Hser
             (counts_low _ _ n _ 4 Hc' Hn4) Hns).
  rewrite track_failed_attempt_bump.
  destruct (bump_counts (RateLimiter.failed_key e) RateLimiter.FAILED_WINDOW_SECONDS
              (fun c => RateLimiter.FAILED_LIMIT <=? c) ltac:(reflexivity)
              (Redis.record (Redis.GET (OTPService.key e))
                 (Redis.record (Redis.GET (RateLimiter.failed_key e))
                    (redis (elapse d w)))) n (Some t) Hc')
    as (r' & -> & [Hclk Hkeys] & Hcounts).
  destruct (Z.eqb_spec (n + 1) 1) as [?|_]; [lia|].
  simpl in Hclk, Hkeys. unfold RateLimiter.FAILED_LIMIT.
  destruct (Z.leb_spec 5 (n + 1)); destruct (Z.ltb_spec (n + 1) 5); try lia;
    (do 2 eexists; split; [reflexivity|]; split; [reflexivity|];
     split; [exact Hcounts|]; split; [exact Hclk|];
     apply Hkeys, not_elem_of_cons; split; [apply otp_key_not_failed | notin]).
Qed.

(** X8. Five verify requests for an identity with no failures on
    record, each presenting a code that is not the stored one, the last
    four inside 900 seconds of the first: the first four are answered 400
    and the fifth 423, and the failure counter then reads 5 until the
    window opened by the first request ends.  This holds as well when no
    code was ever issued for the identity. *)
Theorem five_failed_verifications_lock (e : string) (s0 s1 s2 s3 s4 : Z * request)
    (w : world) :
  Forall (failing_step email_field e (redis w)) [s0; s1; s2; s3; s4] ->
  Redis.live (redis w) (RateLimiter.failed_key e) = None ->
  fst s1 + fst s2 + fst s3 + fst s4 < RateLimiter.FAILED_WINDOW_SECONDS ->
  let res := serve verify_post [s0; s1; s2; s3; s4] w in
  map http_status (fst res) = [Some 400; Some 400; Some 400; Some 400; Some 423]
  /\ counts (redis (snd res)) (RateLimiter.failed_key e) 5
       (Some (Redis.clock (redis w) + fst s0 + RateLimiter.FAILED_WINDOW_SECONDS)).
Proof.
  intros Hall Hnone Hwin.
  destruct s0 as [d0 q0], s1 as [d1 q1], s2 as [d2 q2], s3 as [d3 q3], s4 as [d4 q4].
  repeat match goal with
         | H : Forall _ (_ :: _) |- _ =>
             let Hd := fresh "Hd" in let o := fresh "otp" in
             let Hs := fresh "Hs" in let Hn := fresh "Hn" in
             apply Forall_cons in H as [(Hd & o & Hs & Hn) H]
         end.
  simpl in *. unfold RateLimiter.FAILED_WINDOW_SECONDS in *.
  destruct (failing_request_opens d0 q0 w e _ Hs Hn Hd Hnone)
    as (o0 & w0 & -> & St0 & C0 & K0 & N0).
  destruct (failing_request_counts d1 q1 w0 e _ 1 _ Hs0
              (not_stored_ext _ _ _ _ N0 Hn0) Hd0 C0 ltac:(lia) ltac:(unfold RateLimiter.FAILED_WINDOW_SECONDS; lia))
    as (o1 & w1 & -> & St1 & C1 & K1 & N1).
  rewrite N0 in N1.
  destruct (failing_request_counts d2 q2 w1 e _ 2 _ Hs1
              (not_stored_ext _ _ _ _ N1 Hn1) Hd1 C1 ltac:(lia) ltac:(unfold RateLimiter.FAILED_WINDOW_SECONDS; lia))
    as (o2 & w2 & -> & St2 & C2 & K2 & N2).
  rewrite N1 in N2.
  destruct (failing_request_counts d3 q3 w2 e _ 3 _ Hs2
              (not_stored_ext _ _ _ _ N2 Hn2) Hd2 C2 ltac:(lia) ltac:(unfold RateLimiter.FAILED_WINDOW_SECONDS; lia))
    as (o3 & w3 & -> & St3 & C3 & K3 & N3).
  rewrite N2 in N3.
  destruct (failing_request_counts d4 q4 w3 e _ 4 _ Hs3
              (not_stored_ext _ _ _ _ N3 Hn3) Hd3 C3 ltac:(lia) ltac:(unfold RateLimiter.FAILED_WINDOW_SECONDS; lia))
    as (o4 & w4 & -> & St4 & C4 & K4 & N4).
  simpl. rewrite St0, St1, St2, St3, St4. split; [reflexivity|]. exact C4.
Qed.

End Lockout.

(** ** The request endpoint, branch by branch *)

Section RequestBranches.

Variable email_field : string -> option string.
Variable draw : nat -> nat.

Local Abbreviation request_post := (OTPRequestView_post email_field draw).

(** Both limits have room: a code is generated, stored and queued for
    sending. *)
Lemma request_post_sent rq w e :
  OTPRequestSerializer email_field rq = inl e ->
  low (redis w) (RateLimiter.email_key e) 2 ->
  low (redis w) (RateLimiter.ip_key (get_client_ip rq)) 9 ->
  let code := OTPService.generate_otp draw (drawn w) in
  exists r',
    request_post rq w =
      (Ok (Response true "OTP sent to your email" 202
             (Sent e OTPService.OTP_EXPIRY_SECONDS) 202),
       World r' (users w)
         (queue w ++ [send_otp_email e code;
                      write_audit_log "OTP_REQUESTED" e (get_client_ip rq)
                        (get_client_user_agent rq) []])
         (drawn w + OTPService.OTP_LENGTH)%nat)
    /\ same_except [RateLimiter.email_key e; RateLimiter.ip_key (get_client_ip rq);
                    OTPService.key e] (redis w) r'
    /\ Redis.keys r' !! OTPService.key e
       = Some (Redis.Entry code
                 (Some (Redis.clock (redis w) + OTPService.OTP_EXPIRY_SECONDS))).
Proof.
  intros Hser Hlow1 Hlow2 code. unfold OTPRequestView_post. rewrite Hser.
  unfold bind at 1, on_redis at 1. rewrite is_email_rate_limited_bump.
  destruct (bump_low (RateLimiter.email_key e) RateLimiter.EMAIL_WINDOW_SECONDS
              (fun c => RateLimiter.EMAIL_LIMIT <? c) ltac:(reflexivity) (redis w) 2
              ltac:(lia)) as (r1 & -> & Hs1 & _); [|exact Hlow1|].
  { intros m Hm. unfold RateLimiter.EMAIL_LIMIT. apply Z.ltb_ge. lia. }
  simpl. unfold bind at 1, on_redis at 1. simpl. rewrite is_ip_rate_limited_bump.
  destruct (bump_low (RateLimiter.ip_key (get_client_ip rq)) RateLimiter.IP_WINDOW_SECONDS
              (fun c => RateLimiter.IP_LIMIT <? c) ltac:(reflexivity) r1 9
              ltac:(lia)) as (r2 & -> & Hs2 & _).
  { intros m Hm. unfold RateLimiter.IP_LIMIT. apply Z.ltb_ge. lia. }
  { apply (same_except_low [RateLimiter.email_key e] (redis w)); [done| |done].
    apply not_elem_of_cons. split; [apply not_eq_sym, email_key_not_ip | notin]. }
  simpl. unfold bind at 1, generate_otp at 1. simpl.
  unfold bind at 1, on_redis at 1. rewrite store_otp_eq.
  unfold bind, delay, ret. simpl. fold code.
  eexists. split; [rewrite <- app_assoc; reflexivity|]. split.
  - destruct Hs1 as [Hc1 Hk1], Hs2 as [Hc2 Hk2]. split; [simpl; congruence|].
    intros k Hk. simpl. rewrite lookup_insert_ne; [|notin].
    rewrite Hk2; [|notin]. apply Hk1. notin.
  - simpl. rewrite lookup_insert_eq. destruct Hs1 as [Hc1 _], Hs2 as [Hc2 _].
    by rewrite Hc2, Hc1.
Qed.

(** X9. A request refused for the address has still been counted
    against the email: with room under the email limit and the address
    counter at 10 or more, the answer is the 429 of the address limit with
    the time left in the address window, both counters have grown by one,
    and no other key has changed. *)
Theorem address_limit_spends_email_quota (rq : request) (w : world) (e : string)
    (n m : Z) (x y : option Z) :
  OTPRequestSerializer email_field rq = inl e ->
  counts (redis w) (RateLimiter.email_key e) n x -> 1 <= n <= 2 ->
  counts (redis w) (RateLimiter.ip_key (get_client_ip rq)) m y ->
  RateLimiter.IP_LIMIT <= m ->
  exists r',
    request_post rq w =
      (Ok (Response false
             "Too many OTP requests from this IP. Please try again later." 429
             (RetryAfter (remaining (Redis.clock (redis w)) y)) 429),
       World r' (users w)
         (queue w ++ [write_audit_log "OTP_REQUESTED" e (get_client_ip rq)
                        (get_client_user_agent rq)
                        [("reason", MStr "IP rate limit exceeded")]])
         (drawn w))
    /\ counts r' (RateLimiter.email_key e) (n + 1) x
    /\ counts r' (RateLimiter.ip_key (get_client_ip rq)) (m + 1) y
    /\ same_except [RateLimiter.email_key e; RateLimiter.ip_key (get_client_ip rq)]
         (redis w) r'.
Proof.
  intros Hser Hce [Hn1 Hn2] Hci Hm. unfold OTPRequestView_post. rewrite Hser.
  unfold bind at 1, on_redis at 1. rewrite is_email_rate_limited_bump.
  destruct (bump_counts (RateLimiter.email_key e) RateLimiter.EMAIL_WINDOW_SECONDS
              (fun c => RateLimiter.EMAIL_LIMIT <? c) ltac:(reflexivity) (redis w) n x Hce)
    as (r1 & -> & Hs1 & Hc1).
  destruct (Z.eqb_spec (n + 1) 1) as [?|_]; [lia|].
  unfold RateLimiter.EMAIL_LIMIT at 1.
  destruct (Z.ltb_spec 3 (n + 1)) as [?|_]; [lia|]. simpl.
  unfold bind at 1, on_redis at 1. simpl. rewrite is_ip_rate_limited_bump.
  assert (Hne : RateLimiter.ip_key (get_client_ip rq) ∉ [RateLimiter.email_key e]).
  { apply not_elem_of_cons. split; [apply not_eq_sym, email_key_not_ip | notin]. }
  assert (Hne' : RateLimiter.email_key e ∉ [RateLimiter.ip_key (get_client_ip rq)]).
  { apply not_elem_of_cons. split; [apply email_key_not_ip | notin]. }
  destruct (bump_counts (RateLimiter.ip_key (get_client_ip rq))
              RateLimiter.IP_WINDOW_SECONDS
              (fun c => RateLimiter.IP_LIMIT <? c) ltac:(reflexivity) r1 m y
              (same_except_counts _ _ _ _ _ _ Hs1 Hne Hci))
    as (r2 & -> & Hs2 & Hc2).
  unfold RateLimiter.IP_LIMIT in *.
  destruct (Z.eqb_spec (m + 1) 1) as [?|_]; [lia|].
  destruct (Z.ltb_spec 10 (m + 1)) as [_|?]; [|lia]. simpl.
  unfold bind, delay, ret. simpl.
  exists r2. destruct Hs1 as [Hk1 Hf1]. rewrite Hk1.
  split; [reflexivity|]. split; [|split].
  - by apply (same_except_counts _ r1 r2 _ _ _ Hs2 Hne').
  - done.
  - destruct Hs2 as [Hk2 Hf2]. split; [congruence|].
    intros k Hk. rewrite Hf2; [|notin]. apply Hf1. notin.
Qed.

(** X10. A request refused for the email leaves the address counter
    alone: with the email counter at 3 or more the answer is the 429 of
    the email limit with the time left in the email window, the email
    counter has grown by one and no other key has changed. *)
Theorem email_limit_spares_address_counter (rq : request) (w : world) (e : string)
    (n : Z) (x : option Z) :
  OTPRequestSerializer email_field rq = inl e ->
  counts (redis w) (RateLimiter.email_key e) n x ->
  RateLimiter.EMAIL_LIMIT <= n ->
  exists r',
    request_post rq w =
      (Ok (Response false "Too many OTP requests. Please try again later." 429
             (RetryAfter (remaining (Redis.clock (redis w)) x)) 429),
       World r' (users w)
         (queue w ++ [write_audit_log "OTP_REQUESTED" e (get_client_ip rq)
                        (get_client_user_agent rq)
                        [("reason", MStr "Email rate limit exceeded")]])
         (drawn w))
    /\ counts r' (RateLimiter.email_key e) (n + 1) x
    /\ same_except [RateLimiter.email_key e] (redis w) r'.
Proof.
  intros Hser Hce Hn. unfold OTPRequestView_post. rewrite Hser.
  unfold bind at 1, on_redis at 1. rewrite is_email_rate_limited_bump.
  destruct (bump_counts (RateLimiter.email_key e) RateLimiter.EMAIL_WINDOW_SECONDS
              (fun c => RateLimiter.EMAIL_LIMIT <? c) ltac:(reflexivity) (redis w) n x Hce)
    as (r1 & -> & Hs1 & Hc1).
  unfold RateLimiter.EMAIL_LIMIT in *.
  destruct (Z.eqb_spec (n + 1) 1) as [?|_]; [lia|].
  destruct (Z.ltb_spec 3 (n + 1)) as [_|?]; [|lia]. simpl.
  unfold bind, delay, ret. simpl. by exists r1.
Qed.

End RequestBranches.

(** ** Sessions across the two endpoints *)

Section Sessions.

Variable email_field : string -> option string.
Variable draw : nat -> nat.
Variable for_user : user -> Z -> string * string.

Local Abbreviation request_post := (OTPRequestView_post email_field draw).
Local Abbreviation verify_post := (OTPVerifyView_post email_field for_user).

(** X11. The code that a request queues for sending opens a session:
    with room under both limits the request is answered 202 and queues
    the generated code for the identity; a verify request that presents
    this code less than 300 seconds later, for an identity that is not
    locked and that the user table resolves, is answered 201 with that
    user, and the code is deleted. *)
Theorem requested_code_opens_session (rq1 rq2 : request) (w : world) (e : string)
    (d : Z) (u : user) (created : bool) :
  let code := OTPService.generate_otp draw (drawn w) in
  OTPRequestSerializer email_field rq1 = inl e ->
  OTPVerifySerializer email_field rq2 = inl (e, code) ->
  low (redis w) (RateLimiter.email_key e) 2 ->
  low (redis w) (RateLimiter.ip_key (get_client_ip rq1)) 9 ->
  low (redis w) (RateLimiter.failed_key e) 4 ->
  0 <= d < OTPService.OTP_EXPIRY_SECONDS ->
  resolves (users w) e (Redis.clock (redis w) + d) u created ->
  let '(o1, w1) := request_post rq1 w in
  let '(o2, w2) := verify_post rq2 (elapse d w1) in
  http_status o1 = Some 202
  /\ send_otp_email e code ∈ queue w1
  /\ (exists access refresh,
        o2 = Ok (Response true "OTP verified successfully" 201
                   (Session u access refresh) 201))
  /\ Redis.keys (redis w2) !! OTPService.key e = None.
Proof.
  intros code Hser1 Hser2 Hlow1 Hlow2 Hlow3 [Hd Hlt] Hres.
  destruct (request_post_sent email_field draw rq1 w e Hser1 Hlow1 Hlow2)
    as (r1 & -> & Hs1 & Hk1).
  fold code in Hk1 |- *.
  set (w1 := World r1 _ _ _).
  assert (Hclk : Redis.clock r1 = Redis.clock (redis w)) by apply Hs1.
  assert (Hlow : low (redis (elapse d w1)) (RateLimiter.failed_key e) 4).
  { simpl. apply low_tick; [done|].
    apply (same_except_low _ (redis w) r1 _ _ Hs1); [|done].
    repeat (apply not_elem_of_cons; split);
      [apply failed_key_not_email | apply failed_key_not_ip
      | apply not_eq_sym, otp_key_not_failed | apply not_elem_of_nil]. }
  assert (Hlive : Redis.live (redis (elapse d w1)) (OTPService.key e)
                  = Some (Redis.Entry code
                            (Some (Redis.clock (redis w)
                                   + OTPService.OTP_EXPIRY_SECONDS)))).
  { simpl. unfold Redis.live, Redis.tick. simpl. rewrite Hk1.
    unfold Redis.expired. simpl. rewrite Hclk.
    by destruct (Z.leb_spec (Redis.clock (redis w) + OTPService.OTP_EXPIRY_SECONDS)
                   (Redis.clock (redis w) + d)); [lia|]. }
  assert (Hres' : resolves (users (elapse d w1)) e
                    (Redis.clock (redis (elapse d w1))) u created).
  { simpl. by rewrite Hclk. }
  destruct (verify_post_accepts email_field for_user rq2 (elapse d w1) e code _ u
              created Hser2 Hlow Hlive Hres') as (r2 & -> & _ & Hgone & _).
  split; [reflexivity|]. split; [|split].
  - subst w1. simpl. apply elem_of_app. right. apply elem_of_cons. by left.
  - by do 2 eexists.
  - exact Hgone.
Qed.

(** X12. A code works once at the endpoint too: after the request that
    it opened a session with, the same request made again is answered 400
    and is recorded as the first failure of a new window. *)
Theorem consumed_code_is_refused (rq : request) (w : world) (e otp : string)
    (x : option Z) (d : Z) (u : user) (created : bool) :
  OTPVerifySerializer email_field rq = inl (e, otp) ->
  low (redis w) (RateLimiter.failed_key e) 4 ->
  Redis.live (redis w) (OTPService.key e) = Some (Redis.Entry otp x) ->
  resolves (users w) e (Redis.clock (redis w)) u created ->
  0 <= d ->
  let '(o1, w1) := verify_post rq w in
  let '(o2, w2) := verify_post rq (elapse d w1) in
  http_status o1 = Some 201
  /\ http_status o2 = Some 400
  /\ counts (redis w2) (RateLimiter.failed_key e) 1
       (Some (Redis.clock (redis w) + d + RateLimiter.FAILED_WINDOW_SECONDS)).
Proof.
  intros Hser Hlow Hlive Hres Hd.
  destruct (verify_post_accepts email_field for_user rq w e otp x u created
              Hser Hlow Hlive Hres) as (r1 & -> & [Hclk _] & Hg1 & Hg2).
  set (w1 := World r1 _ _ _).
  assert (Hns : not_stored (redis w1) e otp).
  { intros en Hen. simpl in Hen. congruence. }
  assert (Hnone : Redis.live (redis w1) (RateLimiter.failed_key e) = None).
  { unfold Redis.live. simpl. by rewrite Hg2. }
  destruct (failing_request_opens email_field for_user d rq w1 e otp Hser Hns Hd Hnone)
    as (o2 & w2 & -> & St & Hc & _).
  split; [reflexivity|]. split; [exact St|].
  simpl in Hc. by rewrite Hclk in Hc.
Qed.

End Sessions.

(** ** Every result of the two endpoints *)

Lemma get_or_create_cases e w :
  (exists ex, get_or_create e w = (Raise ex, w))
  \/ (exists u created,
        resolves (users w) e (Redis.clock (redis w)) u created
        /\ get_or_create e w
           = (Ok (u, created),
              World (redis w) (if created then (users w ++ [u])%list else users w)
                (queue w) (drawn w))).
Proof.
  unfold get_or_create.
  destruct (filter (fun u => email u = e) (users w)) as [|u [|u' us]] eqn:Ef.
  - destruct (existsb _ (users w)) eqn:Ex.
    + left. by eexists.
    + right. exists (User (next_id (users w)) e e "" "" true (Redis.clock (redis w))), true.
      split; [by right|reflexivity].
  - right. exists u, false. split; [left; by rewrite Ef|]. by destruct w.
  - left. by eexists.
Qed.

Section Shapes.

Variable email_field : string -> option string.
Variable draw : nat -> nat.
Variable for_user : user -> Z -> string * string.

Local Abbreviation request_post := (OTPRequestView_post email_field draw).
Local Abbreviation verify_post := (OTPVerifyView_post email_field for_user).

Lemma verify_post_shape rq w e otp o w' :
  OTPVerifySerializer email_field rq = inl (e, otp) ->
  verify_post rq w = (o, w') ->
  verify_shape for_user e (get_client_ip rq) (get_client_user_agent rq) w o w'.
Proof.
  intros Hser. unfold OTPVerifyView_post. rewrite Hser.
  unfold bind at 1, on_redis at 1.
  pose proof (is_email_locked_keeps e (redis w)) as Hs1.
  destruct (RateLimiter.is_email_locked e (redis w)) as [[[b eta]|ex] r1];
    simpl in Hs1.
  2:{ intros [= <- <-]. apply verify_raised.
      by apply (same_except_weaken []); [intros k Hk; notin|]. }
  assert (Hs1' : same_except [OTPService.key e; RateLimiter.failed_key e] (redis w) r1)
    by by apply (same_except_weaken []); [intros k Hk; notin|].
  destruct b; simpl.
  { unfold bind, delay, ret. simpl. intros [= <- <-]. apply verify_locked; [done|].
    destruct Hs1 as [_ Hk1]. apply Hk1, not_elem_of_nil. }
  unfold bind at 1, on_redis at 1. simpl.
  destruct (verify_otp_keeps e otp r1) as (ok & r2 & E2 & Hs2).
  pose proof E2 as E2'. rewrite verify_otp_cases in E2'. rewrite E2.
  assert (Hs2' : same_except [OTPService.key e; RateLimiter.failed_key e] (redis w) r2).
  { apply (same_except_trans _ _ r1); [done|].
    apply (same_except_weaken [OTPService.key e]); [intros k Hk; notin|done]. }
  destruct ok; simpl.
  - unfold bind at 1.
    destruct (get_or_create_cases e (World r2 (users w) (queue w) (drawn w)))
      as [(ex & ->) | (u & created & Hres & ->)]; simpl.
    + intros [= <- <-]. by apply verify_raised.
    + unfold bind at 1, on_redis at 1. rewrite clear_failed_attempts_eq.
      unfold bind, now, delay, ret. simpl. intros [= <- <-].
      destruct Hs2' as [Hc2 Hk2]. simpl in Hres. rewrite Hc2 in *.
      apply verify_opened; [|done].
      split; [done|]. intros k Hk. simpl. rewrite lookup_delete_ne; [|notin].
      by apply Hk2.
  - unfold bind at 1, on_redis at 1. simpl.
    assert (Hotp : Redis.keys r2 !! OTPService.key e
                   = Redis.keys (redis w) !! OTPService.key e).
    { destruct Hs1 as [_ Hk1]. rewrite <- (Hk1 _ (not_elem_of_nil _)).
      destruct (Redis.live r1 (OTPService.key e)) as [en|];
        [destruct (_ && _)%bool; [discriminate|]|]; by injection E2' as <-. }
    pose proof (bump_keeps (RateLimiter.failed_key e) RateLimiter.FAILED_WINDOW_SECONDS
                  (fun c => RateLimiter.FAILED_LIMIT <=? c) ltac:(reflexivity) r2) as Hs3.
    rewrite <- track_failed_attempt_bump in Hs3.
    destruct (RateLimiter.track_failed_attempt e r2) as [[[b2 eta2]|ex] r3];
      simpl in Hs3.
    2:{ intros [= <- <-]. apply verify_raised. apply (same_except_trans _ _ r2); [done|].
        apply (same_except_weaken [RateLimiter.failed_key e]); [intros k Hk; notin|done]. }
    assert (Hs3' : same_except [OTPService.key e; RateLimiter.failed_key e]
                     (redis w) r3).
    { apply (same_except_trans _ _ r2); [done|].
      apply (same_except_weaken [RateLimiter.failed_key e]); [intros k Hk; notin|done]. }
    assert (Hotp3 : Redis.keys r3 !! OTPService.key e
                    = Redis.keys (redis w) !! OTPService.key e).
    { rewrite <- Hotp. apply Hs3. apply not_elem_of_cons.
      split; [apply otp_key_not_failed | apply not_elem_of_nil]. }
    destruct b2; simpl; unfold bind, delay, ret; simpl; intros [= <- <-].
    + by apply verify_locked.
    + by apply verify_failed.
Qed.

Lemma request_post_shape rq w e o w' :
  OTPRequestSerializer email_field rq = inl e ->
  request_post rq w = (o, w') ->
  request_shape draw e (get_client_ip rq) (get_client_user_agent rq) w o w'.
Proof.
  intros Hser. unfold OTPRequestView_post. rewrite Hser.
  unfold bind at 1, on_redis at 1.
  pose proof (bump_keeps (RateLimiter.email_key e) RateLimiter.EMAIL_WINDOW_SECONDS
                (fun c => RateLimiter.EMAIL_LIMIT <? c) ltac:(reflexivity) (redis w))
    as Hs1.
  rewrite <- is_email_rate_limited_bump in Hs1.
  destruct (RateLimiter.is_email_rate_limited e (redis w)) as [[[b1 eta1]|ex] r1];
    simpl in Hs1.
  2:{ intros [= <- <-]. apply request_raised.
      apply (same_except_weaken [RateLimiter.email_key e]); [intros k Hk; notin|done]. }
  destruct b1; simpl.
  { unfold bind, delay, ret. simpl. intros [= <- <-]. by apply request_email_limited. }
  unfold bind at 1, on_redis at 1. simpl.
  pose proof (bump_keeps (RateLimiter.ip_key (get_client_ip rq))
                RateLimiter.IP_WINDOW_SECONDS
                (fun c => RateLimiter.IP_LIMIT <? c) ltac:(reflexivity) r1) as Hs2.
  rewrite <- is_ip_rate_limited_bump in Hs2.
  assert (Hs2' : same_except [RateLimiter.email_key e;
                              RateLimiter.ip_key (get_client_ip rq)] (redis w)
                   (snd (RateLimiter.is_ip_rate_limited (get_client_ip rq) r1))).
  { apply (same_except_trans _ _ r1).
    - apply (same_except_weaken [RateLimiter.email_key e]); [intros k Hk; notin|done].
    - apply (same_except_weaken [RateLimiter.ip_key (get_client_ip rq)]);
        [intros k Hk; notin|done]. }
  destruct (RateLimiter.is_ip_rate_limited (get_client_ip rq) r1)
    as [[[b2 eta2]|ex] r2]; simpl in Hs2, Hs2'.
  2:{ intros [= <- <-]. by apply request_raised. }
  destruct b2; simpl.
  { unfold bind, delay, ret. simpl. intros [= <- <-]. by apply request_ip_limited. }
  unfold bind at 1, generate_otp at 1. simpl.
  unfold bind at 1, on_redis at 1. rewrite store_otp_eq.
  unfold bind, delay, ret. simpl. rewrite <- app_assoc. simpl. intros [= <- <-].
  destruct Hs2' as [Hc2 Hk2]. apply request_sent.
  - split; [done|]. intros k Hk. simpl. rewrite lookup_insert_ne; [|notin].
    apply Hk2. notin.
  - simpl. rewrite lookup_insert_eq. by rewrite Hc2.
Qed.

End Shapes.

Lemma otp_key_inj e e' : OTPService.key e = OTPService.key e' -> e = e'.
Proof. cbv [OTPService.key String.append]. by intros [= ->]. Qed.

Lemma failed_key_inj e e' : RateLimiter.failed_key e = RateLimiter.failed_key e' -> e = e'.
Proof. cbv [RateLimiter.failed_key String.append]. by intros [= ->]. Qed.

Section Consequences.

Variable email_field : string -> option string.
Variable draw : nat -> nat.
Variable for_user : user -> Z -> string * string.

Local Abbreviation request_post := (OTPRequestView_post email_field draw).
Local Abbreviation verify_post := (OTPVerifyView_post email_field for_user).

(** X13. A verify request works on its own identity only: whatever its
    result, it keeps the clock, changes no key but the code and the
    failure counter of the identity it validates to, so no rate counter
    and nothing of another identity, never calls the generator and queues
    nothing but audit events for that identity. *)
Theorem verify_touches_own_identity (rq : request) (w w' : world) (e otp : string)
    (o : outcome response) :
  OTPVerifySerializer email_field rq = inl (e, otp) ->
  verify_post rq w = (o, w') ->
  same_except [OTPService.key e; RateLimiter.failed_key e] (redis w) (redis w')
  /\ (forall e', e' <> e ->
        Redis.keys (redis w') !! OTPService.key e'
        = Redis.keys (redis w) !! OTPService.key e'
        /\ Redis.keys (redis w') !! RateLimiter.failed_key e'
           = Redis.keys (redis w) !! RateLimiter.failed_key e')
  /\ (forall a, Redis.keys (redis w') !! RateLimiter.email_key a
                = Redis.keys (redis w) !! RateLimiter.email_key a)
  /\ (forall ip, Redis.keys (redis w') !! RateLimiter.ip_key ip
                 = Redis.keys (redis w) !! RateLimiter.ip_key ip)
  /\ drawn w' = drawn w
  /\ forall t, t ∈ queue w' ->
       t ∈ queue w
       \/ exists ev md, t = write_audit_log ev e (get_client_ip rq)
                              (get_client_user_agent rq) md.
Proof.
  intros Hser Hpost.
  pose proof (verify_post_shape email_field for_user rq w e otp o w' Hser Hpost) as Hsh.
  assert (Hs : same_except [OTPService.key e; RateLimiter.failed_key e]
                 (redis w) (redis w')) by (destruct Hsh; done).
  split; [exact Hs|]. destruct Hs as [_ Hk].
  split; [|split; [|split; [|split]]].
  - intros e' Hne. split; apply Hk; repeat (apply not_elem_of_cons; split);
      try apply not_elem_of_nil.
    + intros H. by apply otp_key_inj in H.
    + apply otp_key_not_failed.
    + apply not_eq_sym, otp_key_not_failed.
    + intros H. by apply failed_key_inj in H.
  - intros a. apply Hk. repeat (apply not_elem_of_cons; split);
      [apply not_eq_sym, otp_key_not_email | apply not_eq_sym, failed_key_not_email
      | apply not_elem_of_nil].
  - intros ip. apply Hk. repeat (apply not_elem_of_cons; split);
      [apply not_eq_sym, otp_key_not_ip | apply not_eq_sym, failed_key_not_ip
      | apply not_elem_of_nil].
  - by destruct Hsh.
  - intros t Ht. destruct Hsh; simpl in Ht; [by left|..];
      (apply elem_of_app in Ht as [Ht|Ht]; [by left|]);
      apply list_elem_of_singleton in Ht; right; by do 2 eexists.
Qed.

(** X14. A request for a code neither lifts nor causes a lockout:
    whatever its result, [is_email_locked] answers for every identity
    what it answered before, the codes of other identities are as they
    were, and the user table is unchanged. *)
Theorem request_leaves_lockout_alone (rq : request) (w w' : world) (e : string)
    (o : outcome response) :
  OTPRequestSerializer email_field rq = inl e ->
  request_post rq w = (o, w') ->
  (forall e', fst (RateLimiter.is_email_locked e' (redis w'))
              = fst (RateLimiter.is_email_locked e' (redis w)))
  /\ (forall e', e' <> e ->
        Redis.keys (redis w') !! OTPService.key e'
        = Redis.keys (redis w) !! OTPService.key e')
  /\ users w' = users w.
Proof.
  intros Hser Hpost.
  pose proof (request_post_shape email_field draw rq w e o w' Hser Hpost) as Hsh.
  assert (Hs : same_except [RateLimiter.email_key e;
                            RateLimiter.ip_key (get_client_ip rq); OTPService.key e]
                 (redis w) (redis w')).
  { destruct Hsh; simpl; try done;
      (eapply same_except_weaken; [|eassumption]); intros k Hk; notin. }
  split; [|split].
  - intros e'.
    assert (Hl : Redis.live (redis w') (RateLimiter.failed_key e')
                 = Redis.live (redis w) (RateLimiter.failed_key e')).
    { apply (same_except_live _ _ _ _ Hs).
      repeat (apply not_elem_of_cons; split);
        [apply failed_key_not_email | apply failed_key_not_ip
        | apply not_eq_sym, otp_key_not_failed | apply not_elem_of_nil]. }
    rewrite !is_email_locked_cases, Hl. destruct Hs as [Hc _].
    destruct (Redis.live (redis w) _) as [en|]; [|done].
    destruct (negb _); [done|]. destruct (Py.int _) as [n|]; [|done].
    destruct (_ <=? n); [|done]. simpl. by rewrite Hc.
  - intros e' Hne. apply Hs. repeat (apply not_elem_of_cons; split);
      [apply otp_key_not_email | apply otp_key_not_ip | | apply not_elem_of_nil].
    intros H. by apply otp_key_inj in H.
  - by destruct Hsh.
Qed.

End Consequences.

Section Responses.

Variable email_field : string -> option string.
Variable draw : nat -> nat.
Variable for_user : user -> Z -> string * string.

Local Abbreviation request_post := (OTPRequestView_post email_field draw).
Local Abbreviation verify_post := (OTPVerifyView_post email_field for_user).

(** X15. In every response of the two endpoints the status written in
    the body is the HTTP status, the request endpoint answers 400, 429 or
    202 and the verify endpoint 400, 423 or 201, and the success flag is
    set exactly on 202 and on 201. *)
Theorem otp_views_status_consistent :
  (forall rq w resp w',
     OTPRequestView_post email_field draw rq w = (Ok resp, w') ->
     status_code resp = status resp
     /\ In (status resp) [400; 429; 202]
     /\ success resp = (status resp =? 202))
  /\ (forall rq w resp w',
        OTPVerifyView_post email_field for_user rq w = (Ok resp, w') ->
        status_code resp = status resp
        /\ In (status resp) [400; 423; 201]
        /\ success resp = (status resp =? 201)).
Proof.
  split; intros rq w resp w' Hpost.
  - destruct (OTPRequestSerializer email_field rq) as [e|errs] eqn:Hser.
    + pose proof (request_post_shape email_field draw rq w e _ _ Hser Hpost) as Hsh.
      inversion Hsh; subst; simpl; auto 6.
    + unfold OTPRequestView_post in Hpost. rewrite Hser in Hpost.
      injection Hpost as <- <-. simpl. auto.
  - destruct (OTPVerifySerializer email_field rq) as [[e otp]|errs] eqn:Hser.
    + pose proof (verify_post_shape email_field for_user rq w e otp _ _ Hser Hpost)
        as Hsh.
      inversion Hsh; subst; simpl; auto 6.
    + unfold OTPVerifyView_post in Hpost. rewrite Hser in Hpost.
      injection Hpost as <- <-. simpl. auto.
Qed.

(** X16. Every validated request that gets a response leaves exactly
    one audit event, for the validated identity and of a kind that
    [AuditLog.EVENT_CHOICES] lists: OTP_REQUESTED from the request
    endpoint, after the task that sends the code when the status is 202
    and alone otherwise; from the verify endpoint OTP_VERIFIED on 201,
    OTP_LOCKED on 423 and OTP_FAILED on 400. *)
Theorem every_validated_request_is_audited :
  (forall rq w e resp w',
     OTPRequestSerializer email_field rq = inl e ->
     request_post rq w = (Ok resp, w') ->
     exists md,
       queue w'
       = (queue w
          ++ (if status resp =? 202
              then [send_otp_email e (OTPService.generate_otp draw (drawn w))]
              else [])
          ++ [write_audit_log "OTP_REQUESTED" e (get_client_ip rq)
                (get_client_user_agent rq) md])%list
       /\ In "OTP_REQUESTED" (map fst Audit.EVENT_CHOICES))
  /\ (forall rq w e otp resp w',
        OTPVerifySerializer email_field rq = inl (e, otp) ->
        verify_post rq w = (Ok resp, w') ->
        exists md,
          queue w'
          = (queue w ++ [write_audit_log (verify_event (status resp)) e
                           (get_client_ip rq) (get_client_user_agent rq) md])%list
          /\ In (verify_event (status resp)) (map fst Audit.EVENT_CHOICES)).
Proof.
  split.
  - intros rq w e resp w' Hser Hpost.
    pose proof (request_post_shape email_field draw rq w e _ _ Hser Hpost) as Hsh.
    inversion Hsh; subst; simpl; eexists; (split; [reflexivity | simpl; auto]).
  - intros rq w e otp resp w' Hser Hpost.
    pose proof (verify_post_shape email_field for_user rq w e otp _ _ Hser Hpost) as Hsh.
    inversion Hsh; subst; simpl; eexists; (split; [reflexivity | simpl; auto 6]).
Qed.

(** X17. When the stored code is presented but the user table can
    neither find nor create the user, because no row has the email and a
    row already has it as username, the view raises IntegrityError after
    the code has been deleted: the code is spent, no session is opened,
    the failure counter is as it was and no audit event is queued. *)
Theorem unresolvable_user_spends_code (rq : request) (w : world) (e otp : string)
    (x : option Z) :
  OTPVerifySerializer email_field rq = inl (e, otp) ->
  low (redis w) (RateLimiter.failed_key e) 4 ->
  Redis.live (redis w) (OTPService.key e) = Some (Redis.Entry otp x) ->
  filter (fun v => email v = e) (users w) = [] ->
  existsb (fun v => String.eqb (username v) e) (users w) = true ->
  exists r',
    verify_post rq w = (Raise IntegrityError, World r' (users w) (queue w) (drawn w))
    /\ Redis.keys r' !! OTPService.key e = None
    /\ Redis.keys r' !! RateLimiter.failed_key e
       = Redis.keys (redis w) !! RateLimiter.failed_key e.
Proof.
  intros Hser Hlow Hlive Hf Hex. unfold OTPVerifyView_post. rewrite Hser.
  unfold bind at 1, on_redis at 1.
  rewrite (is_email_locked_low e (redis w) 4 Hlow ltac:(reflexivity)). simpl.
  unfold bind at 1, on_redis at 1. simpl.
  rewrite verify_otp_cases, live_record, Hlive. simpl.
  rewrite (length_truthy otp (validated_otp_length email_field rq e otp Hser)),
    String.eqb_refl.
  simpl. unfold bind at 1, get_or_create. simpl. rewrite Hf, Hex.
  eexists. split; [reflexivity|]. simpl. split.
  - apply lookup_delete_eq.
  - rewrite lookup_delete_ne; [done|]. apply otp_key_not_failed.
Qed.


End Responses.

(** ** The user table *)




(** After [get_or_create] has answered, the table holds the user it
    returned as the one row for the email. *)
Lemma resolves_filter us e t u created :
  resolves us e t u created ->
  filter (fun v => email v = e) (if created then (us ++ [u])%list else us) = [u].
Proof.
  intros [(-> & Hf) | (-> & Hf & Hex & ->)]; [done|].
  rewrite filter_app, Hf. simpl. rewrite filter_cons, filter_nil. simpl.
  by destruct (decide (e = e)).
Qed.


Section Identity.

Variable email_field : string -> option string.
Variable for_user : user -> Z -> string * string.

Local Abbreviation verify_post := (OTPVerifyView_post email_field for_user).

(** X19. An email always opens the session of the same user: when a
    verify request for an identity has been answered 201 with a user, a
    later verify request for that identity that is answered 201, on a
    user table that has not changed in between, carries the same user,
    reports it as found and not as created, and adds no row. *)
Theorem verified_identity_is_stable (rq1 rq2 : request) (w w1 w2 w3 : world)
    (e otp1 otp2 : string) (resp1 resp2 : response) (u1 u2 : user)
    (a1 r1 a2 r2 : string) :
  OTPVerifySerializer email_field rq1 = inl (e, otp1) ->
  OTPVerifySerializer email_field rq2 = inl (e, otp2) ->
  verify_post rq1 w = (Ok resp1, w1) -> data resp1 = Session u1 a1 r1 ->
  users w2 = users w1 ->
  verify_post rq2 w2 = (Ok resp2, w3) -> data resp2 = Session u2 a2 r2 ->
  u2 = u1
  /\ users w3 = users w2
  /\ write_audit_log "OTP_VERIFIED" e (get_client_ip rq2) (get_client_user_agent rq2)
       [("user_id", MInt (id u1)); ("user_created", MBool false)] ∈ queue w3.
Proof.
  intros Hser1 Hser2 Hp1 Hd1 Husers Hp2 Hd2.
  pose proof (verify_post_shape email_field for_user rq1 w e otp1 _ _ Hser1 Hp1) as S1.
  pose proof (verify_post_shape email_field for_user rq2 w2 e otp2 _ _ Hser2 Hp2) as S2.
  inversion S1 as [| | |u c r' Hs Hres]; subst; simpl in Hd1; try discriminate.
  injection Hd1 as -> _ _.
  apply resolves_filter in Hres. simpl in Husers. rewrite <- Husers in Hres.
  inversion S2 as [| | |u' c' r'' Hs' Hres']; subst; simpl in Hd2; try discriminate.
  injection Hd2 as -> _ _.
  destruct Hres' as [(-> & Hf) | (-> & Hf & _)]; rewrite Hf in Hres; [|discriminate].
  injection Hres as ->. simpl. repeat split; try done.
  apply elem_of_app. right. by left.
Qed.


End Identity.

(** ** Strings: codes and addresses *)

Lemma digit_not_space c : Py.is_digit c = true -> Py.is_space c = false.
Proof. destruct c as [[] [] [] [] [] [] [] []]; simpl; intros H; try reflexivity; discriminate H. Qed.

Lemma digit_is_digit n : Py.is_digit (OTPService.digit n) = true.
Proof.
  unfold OTPService.digit.
  pose proof (Nat.mod_upper_bound n 10 ltac:(lia)) as H.
  destruct (n mod 10)%nat as [|[|[|[|[|[|[|[|[|[|m]]]]]]]]]]; try reflexivity; lia.
Qed.

Lemma choices_all_digits draw from k :
  Py.all_digits (OTPService.choices draw from k) = true.
Proof.
  revert from. induction k as [|k IH]; intros from;
    cbn [OTPService.choices Py.all_digits]; [done|].
  by rewrite digit_is_digit, IH.
Qed.

Lemma choices_length draw from k : String.length (OTPService.choices draw from k) = k.
Proof.
  revert from. induction k as [|k IH]; intros from;
    cbn [OTPService.choices String.length]; [done|].
  by rewrite IH.
Qed.

Lemma lstrip_digits s : Py.all_digits s = true -> Py.lstrip s = s.
Proof.
  destruct s as [|c r]; simpl; [done|]. intros H.
  apply andb_true_iff in H as [Hc _]. by rewrite (digit_not_space c Hc).
Qed.

Lemma rstrip_digits s : Py.all_digits s = true -> Py.rstrip s = s.
Proof.
  induction s as [|c r IH]; simpl; [done|]. intros H.
  apply andb_true_iff in H as [Hc Hr]. rewrite (IH Hr), (digit_not_space c Hc).
  by destruct r.
Qed.

Lemma strip_digits s : Py.all_digits s = true -> Py.strip s = s.
Proof. intros H. unfold Py.strip. by rewrite (lstrip_digits s H), (rstrip_digits s H). Qed.

(** X21. Every code [generate_otp] produces passes the validation of
    the verify endpoint unchanged: it has six characters, all digits,
    whatever the generator draws. *)
Theorem generated_code_passes_validation (draw : nat -> nat) (from : nat) :
  otp_field (OTPService.generate_otp draw from)
  = Some (OTPService.generate_otp draw from).
Proof.
  unfold otp_field, OTPService.generate_otp.
  pose proof (choices_all_digits draw from OTPService.OTP_LENGTH) as Hd.
  rewrite (strip_digits _ Hd), choices_length. simpl Nat.eqb.
  unfold Py.isdigit. rewrite Hd. reflexivity.
Qed.









(** ** The audit log and the permission classes *)

Section AuditFilter.

Variable fromisoformat : string -> option Z.

(** [get_queryset] as two filters, one per bound that is given and
    readable. *)
Lemma get_queryset_filters all from_date to_date :
  Audit.get_queryset fromisoformat all from_date to_date
  = let lower := match bound fromisoformat from_date with
                 | Some lo => filter (fun a => lo <= Audit.created_at a) all
                 | None => all
                 end in
    match bound fromisoformat to_date with
    | Some hi => filter (fun a => Audit.created_at a <= hi) lower
    | None => lower
    end.
Proof.
  unfold Audit.get_queryset, bound.
  destruct from_date as [s|]; destruct to_date as [t|]; simpl;
    repeat match goal with
           | |- context [Py.truthy ?s] => destruct (Py.truthy s)
           | |- context [fromisoformat ?s] => destruct (fromisoformat s)
           end; reflexivity.
Qed.

(** X24. [get_queryset] returns the rows of the base queryset that lie
    between the two bounds, in their order: a row is returned exactly
    when it is a row of the base queryset that is not before the lower
    bound, when one is given and readable, and not after the upper one,
    when one is given and readable. *)
Theorem get_queryset_is_date_range (all : list Audit.AuditLog)
    (from_date to_date : option string) :
  sublist (Audit.get_queryset fromisoformat all from_date to_date) all
  /\ forall a,
       a ∈ Audit.get_queryset fromisoformat all from_date to_date <->
       a ∈ all
       /\ (forall lo, bound fromisoformat from_date = Some lo ->
                      lo <= Audit.created_at a)
       /\ (forall hi, bound fromisoformat to_date = Some hi ->
                      Audit.created_at a <= hi).
Proof.
  rewrite get_queryset_filters. cbv zeta.
  destruct (bound fromisoformat from_date) as [lo|];
    destruct (bound fromisoformat to_date) as [hi|]; split;
    try (intros a; rewrite ?list_elem_of_filter; split;
         [intros H; repeat split; try apply H; by intros ? [= <-]; apply H
         | intros (Hin & Hlo & Hhi); repeat split; auto]).
  - etrans; apply sublist_filter.
  - apply sublist_filter.
  - apply sublist_filter.
  - done.
Qed.

Lemma filter_disjoint {A} (P Q : A -> Prop) `{!forall x, Decision (P x)}
    `{!forall x, Decision (Q x)} (l : list A) :
  (forall x, Q x -> ~ P x) -> filter P (filter Q l) = [].
Proof.
  intros Hdis. induction l as [|a l IH]; [done|].
  rewrite filter_cons. destruct (decide (Q a)) as [Hq|_]; [|done].
  rewrite filter_cons. by destruct (decide (P a)) as [Hp|_]; [destruct (Hdis a Hq Hp)|].
Qed.

(** X25. A bound that is absent, empty or unreadable is passed over in
    silence: with no usable bound every row is returned.  Bounds given in
    the wrong order, the upper one before the lower one, return no row. *)
Theorem get_queryset_edge_bounds (all : list Audit.AuditLog)
    (from_date to_date : option string) :
  (bound fromisoformat from_date = None -> bound fromisoformat to_date = None ->
   Audit.get_queryset fromisoformat all from_date to_date = all)
  /\ (forall lo hi,
        bound fromisoformat from_date = Some lo ->
        bound fromisoformat to_date = Some hi ->
        hi < lo ->
        Audit.get_queryset fromisoformat all from_date to_date = []).
Proof.
  rewrite get_queryset_filters. cbv zeta. split.
  - by intros -> ->.
  - intros lo hi -> -> Hlt. apply filter_disjoint. intros a Ha. lia.
Qed.

End AuditFilter.

(** X26. The permission classes are nested under [AllUsers]: whoever
    [IsAdminUser] or [IsSuperUser] lets through is let through by
    [AllUsers]; a user that is not authenticated is refused by all three
    with the same detail, whatever flags it carries; and an authenticated
    user passes [IsAdminUser] exactly with the staff flag and
    [IsSuperUser] exactly with the superuser flag. *)
Theorem permission_classes_nest (user : Permissions.principal) :
  (Permissions.IsAdminUser_has_permission user = Permissions.Granted ->
   Permissions.AllUsers_has_permission user = Permissions.Granted)
  /\ (Permissions.IsSuperUser_has_permission user = Permissions.Granted ->
      Permissions.AllUsers_has_permission user = Permissions.Granted)
  /\ (Permissions.is_authenticated user = false ->
      Permissions.AllUsers_has_permission user
      = Permissions.PermissionDenied "Authentication required."
      /\ Permissions.IsAdminUser_has_permission user
         = Permissions.PermissionDenied "Authentication required."
      /\ Permissions.IsSuperUser_has_permission user
         = Permissions.PermissionDenied "Authentication required.")
  /\ (Permissions.is_authenticated user = true ->
      (Permissions.IsAdminUser_has_permission user = Permissions.Granted
       <-> Permissions.is_staff user = true)
      /\ (Permissions.IsSuperUser_has_permission user = Permissions.Granted
          <-> Permissions.is_superuser user = true)).
Proof.
  destruct user as [[] [] []]; cbv; repeat split; try done; discriminate.
Qed.

(** * The further theorems at concrete inputs *)

Lemma issued_code_lives_for_expiry_witness :
  String.length "123456" = OTPService.OTP_LENGTH
  /\ 0 <= 299
  /\ fst (OTPService.verify_otp "a@x.com" "123456"
            (Redis.tick 299
               (snd (OTPService.store_otp "a@x.com" "123456" (Redis.empty 1000)))))
     = Ok true.
Proof.
  assert (h1 : String.length "123456" = OTPService.OTP_LENGTH) by reflexivity.
  assert (h2 : 0 <= 299) by discriminate.
  split; [exact h1|]. split; [exact h2|].
  exact (issued_code_lives_for_expiry "a@x.com" "123456" (Redis.empty 1000) 299 h1 h2).
Defined.

Lemma reissue_replaces_code_witness :
  String.length "222222" = OTPService.OTP_LENGTH
  /\ "111111" <> "222222"
  /\ 0 <= 10
  /\ 0 <= 20 < OTPService.OTP_EXPIRY_SECONDS
  /\ let r1 := Redis.tick 10
                 (snd (OTPService.store_otp "a@x.com" "111111" (Redis.empty 1000))) in
     let r2 := Redis.tick 20 (snd (OTPService.store_otp "a@x.com" "222222" r1)) in
     let '(o1, r3) := OTPService.verify_otp "a@x.com" "111111" r2 in
     o1 = Ok false /\ fst (OTPService.verify_otp "a@x.com" "222222" r3) = Ok true.
Proof.
  assert (h1 : String.length "222222" = OTPService.OTP_LENGTH) by reflexivity.
  assert (h2 : "111111" <> "222222") by discriminate.
  assert (h3 : 0 <= 10) by discriminate.
  assert (h4 : 0 <= 20 < OTPService.OTP_EXPIRY_SECONDS) by (split; [discriminate|reflexivity]).
  split; [exact h1|]. split; [exact h2|]. split; [exact h3|]. split; [exact h4|].
  exact (reissue_replaces_code "a@x.com" "111111" "222222" (Redis.empty 1000) 10 20
           h1 h2 h3 h4).
Defined.


Lemma windows_reopen_after_expiry_witness :
  counts Demo.spent (RateLimiter.email_key "a@x.com") 3 (Some 1500)
  /\ 0 <= 500
  /\ 1500 <= Redis.clock Demo.spent + 500
  /\ exists r',
       RateLimiter.is_email_rate_limited "a@x.com" (Redis.tick 500 Demo.spent)
       = (Ok (false, 0), r')
       /\ counts r' (RateLimiter.email_key "a@x.com") 1
            (Some (Redis.clock Demo.spent + 500 + RateLimiter.EMAIL_WINDOW_SECONDS)).
Proof.
  assert (h1 : counts Demo.spent (RateLimiter.email_key "a@x.com") 3 (Some 1500)).
  { exists (Redis.Entry "3" (Some 1500)). split; [reflexivity|]. split; reflexivity. }
  assert (h2 : 0 <= 500) by discriminate.
  assert (h3 : 1500 <= Redis.clock Demo.spent + 500) by discriminate.
  split; [exact h1|]. split; [exact h2|]. split; [exact h3|].
  exact (proj1 windows_reopen_after_expiry "a@x.com" Demo.spent 3 1500 500 h1 h2 h3).
Defined.

Lemma lockout_counts_down_and_lifts_witness :
  counts Demo.locked (RateLimiter.failed_key "a@x.com") 5 (Some 1900)
  /\ RateLimiter.FAILED_LIMIT <= 5
  /\ 0 <= 100
  /\ fst (RateLimiter.is_email_locked "a@x.com" (Redis.tick 100 Demo.locked))
     = Ok (true, 800).
Proof.
  assert (h1 : counts Demo.locked (RateLimiter.failed_key "a@x.com") 5 (Some 1900)).
  { exists (Redis.Entry "5" (Some 1900)). split; [reflexivity|]. split; reflexivity. }
  assert (h2 : RateLimiter.FAILED_LIMIT <= 5) by discriminate.
  assert (h3 : 0 <= 100) by discriminate.
  split; [exact h1|]. split; [exact h2|]. split; [exact h3|].
  exact (lockout_counts_down_and_lifts "a@x.com" Demo.locked 5 1900 100 h1 h2 h3).
Defined.

Lemma five_failed_verifications_lock_witness :
  Forall (failing_step Demo.field "a@x.com" (redis (Demo.at_ Demo.issued)))
    [Demo.wrong; Demo.wrong; Demo.wrong; Demo.wrong; Demo.wrong]
  /\ Redis.live (redis (Demo.at_ Demo.issued)) (RateLimiter.failed_key "a@x.com") = None
  /\ fst Demo.wrong + fst Demo.wrong + fst Demo.wrong + fst Demo.wrong
     < RateLimiter.FAILED_WINDOW_SECONDS
  /\ let res := serve (OTPVerifyView_post Demo.field Demo.tokens)
                  [Demo.wrong; Demo.wrong; Demo.wrong; Demo.wrong; Demo.wrong]
                  (Demo.at_ Demo.issued) in
     map http_status (fst res) = [Some 400; Some 400; Some 400; Some 400; Some 423]
     /\ counts (redis (snd res)) (RateLimiter.failed_key "a@x.com") 5
          (Some (Redis.clock (redis (Demo.at_ Demo.issued)) + fst Demo.wrong
                 + RateLimiter.FAILED_WINDOW_SECONDS)).
Proof.
  assert (h0 : failing_step Demo.field "a@x.com" (redis (Demo.at_ Demo.issued))
                 Demo.wrong).
  { split; [discriminate|]. exists "000000". split; [reflexivity|].
    intros en Hen. vm_compute in Hen. injection Hen as <-. discriminate. }
  assert (h1 : Forall (failing_step Demo.field "a@x.com" (redis (Demo.at_ Demo.issued)))
                 [Demo.wrong; Demo.wrong; Demo.wrong; Demo.wrong; Demo.wrong])
    by (repeat (constructor; [exact h0|]); constructor).
  assert (h2 : Redis.live (redis (Demo.at_ Demo.issued))
                 (RateLimiter.failed_key "a@x.com") = None) by reflexivity.
  assert (h3 : fst Demo.wrong + fst Demo.wrong + fst Demo.wrong + fst Demo.wrong
               < RateLimiter.FAILED_WINDOW_SECONDS) by reflexivity.
  split; [exact h1|]. split; [exact h2|]. split; [exact h3|].
  exact (five_failed_verifications_lock Demo.field Demo.tokens "a@x.com"
           Demo.wrong Demo.wrong Demo.wrong Demo.wrong Demo.wrong
           (Demo.at_ Demo.issued) h1 h2 h3).
Defined.

Lemma address_limit_spends_email_quota_witness :
  OTPRequestSerializer Demo.field (Demo.ask "a@x.com") = inl "a@x.com"
  /\ counts (redis (Demo.at_ Sample.crowded)) (RateLimiter.email_key "a@x.com")
       1 (Some 1500)
  /\ 1 <= 1 <= 2
  /\ counts (redis (Demo.at_ Sample.crowded))
       (RateLimiter.ip_key (get_client_ip (Demo.ask "a@x.com"))) 10 (Some 4000)
  /\ RateLimiter.IP_LIMIT <= 10
  /\ exists r',
       OTPRequestView_post Demo.field Demo.draw (Demo.ask "a@x.com")
         (Demo.at_ Sample.crowded)
       = (Ok (Response false
                "Too many OTP requests from this IP. Please try again later." 429
                (RetryAfter (remaining (Redis.clock (redis (Demo.at_ Sample.crowded)))
                               (Some 4000))) 429),
          World r' (users (Demo.at_ Sample.crowded))
            (queue (Demo.at_ Sample.crowded)
             ++ [write_audit_log "OTP_REQUESTED" "a@x.com"
                   (get_client_ip (Demo.ask "a@x.com"))
                   (get_client_user_agent (Demo.ask "a@x.com"))
                   [("reason", MStr "IP rate limit exceeded")]])
            (drawn (Demo.at_ Sample.crowded)))
       /\ counts r' (RateLimiter.email_key "a@x.com") (1 + 1) (Some 1500)
       /\ counts r' (RateLimiter.ip_key (get_client_ip (Demo.ask "a@x.com")))
            (10 + 1) (Some 4000)
       /\ same_except [RateLimiter.email_key "a@x.com";
                       RateLimiter.ip_key (get_client_ip (Demo.ask "a@x.com"))]
            (redis (Demo.at_ Sample.crowded)) r'.
Proof.
  assert (h1 : OTPRequestSerializer Demo.field (Demo.ask "a@x.com") = inl "a@x.com")
    by reflexivity.
  assert (h2 : counts (redis (Demo.at_ Sample.crowded))
                 (RateLimiter.email_key "a@x.com") 1 (Some 1500)).
  { exists (Redis.Entry "1" (Some 1500)). split; [reflexivity|]. split; reflexivity. }
  assert (h3 : 1 <= 1 <= 2) by (split; discriminate).
  assert (h4 : counts (redis (Demo.at_ Sample.crowded))
                 (RateLimiter.ip_key (get_client_ip (Demo.ask "a@x.com")))
                 10 (Some 4000)).
  { exists (Redis.Entry "10" (Some 4000)). split; [reflexivity|]. split; reflexivity. }
  assert (h5 : RateLimiter.IP_LIMIT <= 10) by discriminate.
  split; [exact h1|]. split; [exact h2|]. split; [exact h3|]. split; [exact h4|].
  split; [exact h5|].
  exact (address_limit_spends_email_quota Demo.field Demo.draw (Demo.ask "a@x.com")
           (Demo.at_ Sample.crowded) "a@x.com" 1 10 (Some 1500) (Some 4000)
           h1 h2 h3 h4 h5).
Defined.

Lemma email_limit_spares_address_counter_witness :
  OTPRequestSerializer Demo.field (Demo.ask "a@x.com") = inl "a@x.com"
  /\ counts (redis (Demo.at_ Demo.spent)) (RateLimiter.email_key "a@x.com")
       3 (Some 1500)
  /\ RateLimiter.EMAIL_LIMIT <= 3
  /\ exists r',
       OTPRequestView_post Demo.field Demo.draw (Demo.ask "a@x.com")
         (Demo.at_ Demo.spent)
       = (Ok (Response false "Too many OTP requests. Please try again later." 429
                (RetryAfter (remaining (Redis.clock (redis (Demo.at_ Demo.spent)))
                               (Some 1500))) 429),
          World r' (users (Demo.at_ Demo.spent))
            (queue (Demo.at_ Demo.spent)
             ++ [write_audit_log "OTP_REQUESTED" "a@x.com"
                   (get_client_ip (Demo.ask "a@x.com"))
                   (get_client_user_agent (Demo.ask "a@x.com"))
                   [("reason", MStr "Email rate limit exceeded")]])
            (drawn (Demo.at_ Demo.spent)))
       /\ counts r' (RateLimiter.email_key "a@x.com") (3 + 1) (Some 1500)
       /\ same_except [RateLimiter.email_key "a@x.com"]
            (redis (Demo.at_ Demo.spent)) r'.
Proof.
  assert (h1 : OTPRequestSerializer Demo.field (Demo.ask "a@x.com") = inl "a@x.com")
    by reflexivity.
  assert (h2 : counts (redis (Demo.at_ Demo.spent))
                 (RateLimiter.email_key "a@x.com") 3 (Some 1500)).
  { exists (Redis.Entry "3" (Some 1500)). split; [reflexivity|]. split; reflexivity. }
  assert (h3 : RateLimiter.EMAIL_LIMIT <= 3) by discriminate.
  split; [exact h1|]. split; [exact h2|]. split; [exact h3|].
  exact (email_limit_spares_address_counter Demo.field Demo.draw (Demo.ask "a@x.com")
           (Demo.at_ Demo.spent) "a@x.com" 3 (Some 1500) h1 h2 h3).
Defined.

Lemma requested_code_opens_session_witness :
  OTPRequestSerializer Demo.field (Demo.ask "A@X.com") = inl "a@x.com"
  /\ OTPVerifySerializer Demo.field (Demo.present "a@x.COM" "012345")
     = inl ("a@x.com", OTPService.generate_otp Demo.draw 0)
  /\ 0 <= 5 < OTPService.OTP_EXPIRY_SECONDS
  /\ resolves [] "a@x.com" (1000 + 5) (Sample.newcomer 1005) true
  /\ let '(o1, w1) := OTPRequestView_post Demo.field Demo.draw (Demo.ask "A@X.com")
                        (Demo.at_ (Redis.empty 1000)) in
     let '(o2, w2) := OTPVerifyView_post Demo.field Demo.tokens
                        (Demo.present "a@x.COM" "012345") (elapse 5 w1) in
     http_status o1 = Some 202
     /\ send_otp_email "a@x.com" (OTPService.generate_otp Demo.draw 0) ∈ queue w1
     /\ (exists access refresh,
           o2 = Ok (Response true "OTP verified successfully" 201
                      (Session (Sample.newcomer 1005) access refresh) 201))
     /\ Redis.keys (redis w2) !! OTPService.key "a@x.com" = None.
Proof.
  assert (h1 : OTPRequestSerializer Demo.field (Demo.ask "A@X.com") = inl "a@x.com")
    by reflexivity.
  assert (h2 : OTPVerifySerializer Demo.field (Demo.present "a@x.COM" "012345")
               = inl ("a@x.com", OTPService.generate_otp Demo.draw 0)) by reflexivity.
  assert (h3 : 0 <= 5 < OTPService.OTP_EXPIRY_SECONDS)
    by (split; [discriminate|reflexivity]).
  assert (h4 : resolves [] "a@x.com" (1000 + 5) (Sample.newcomer 1005) true).
  { right. split; [reflexivity|]. split; [reflexivity|]. split; reflexivity. }
  split; [exact h1|]. split; [exact h2|]. split; [exact h3|]. split; [exact h4|].
  exact (requested_code_opens_session Demo.field Demo.draw Demo.tokens
           (Demo.ask "A@X.com") (Demo.present "a@x.COM" "012345")
           (Demo.at_ (Redis.empty 1000)) "a@x.com" 5 (Sample.newcomer 1005) true
           h1 h2 I I I h3 h4).
Defined.

Lemma consumed_code_is_refused_witness :
  OTPVerifySerializer Demo.field (Demo.present "a@x.com" "123456")
  = inl ("a@x.com", "123456")
  /\ Redis.live (redis (Demo.at_ Demo.issued)) (OTPService.key "a@x.com")
     = Some (Redis.Entry "123456" (Some 1300))
  /\ resolves (users (Demo.at_ Demo.issued)) "a@x.com" 1000 (Sample.newcomer 1000) true
  /\ 0 <= 3
  /\ let '(o1, w1) := OTPVerifyView_post Demo.field Demo.tokens
                        (Demo.present "a@x.com" "123456") (Demo.at_ Demo.issued) in
     let '(o2, w2) := OTPVerifyView_post Demo.field Demo.tokens
                        (Demo.present "a@x.com" "123456") (elapse 3 w1) in
     http_status o1 = Some 201
     /\ http_status o2 = Some 400
     /\ counts (redis w2) (RateLimiter.failed_key "a@x.com") 1
          (Some (Redis.clock (redis (Demo.at_ Demo.issued)) + 3
                 + RateLimiter.FAILED_WINDOW_SECONDS)).
Proof.
  assert (h1 : OTPVerifySerializer Demo.field (Demo.present "a@x.com" "123456")
               = inl ("a@x.com", "123456")) by reflexivity.
  assert (h2 : Redis.live (redis (Demo.at_ Demo.issued)) (OTPService.key "a@x.com")
               = Some (Redis.Entry "123456" (Some 1300))) by reflexivity.
  assert (h3 : resolves (users (Demo.at_ Demo.issued)) "a@x.com" 1000
                 (Sample.newcomer 1000) true).
  { right. split; [reflexivity|]. split; [reflexivity|]. split; reflexivity. }
  assert (h4 : 0 <= 3) by discriminate.
  split; [exact h1|]. split; [exact h2|]. split; [exact h3|]. split; [exact h4|].
  exact (consumed_code_is_refused Demo.field Demo.tokens
           (Demo.present "a@x.com" "123456") (Demo.at_ Demo.issued) "a@x.com" "123456"
           (Some 1300) 3 (Sample.newcomer 1000) true h1 I h2 h3 h4).
Defined.

Lemma verify_touches_own_identity_witness :
  let rq := Demo.present "a@x.com" "000000" in
  let w := Demo.at_ Demo.issued in
  let o := fst (OTPVerifyView_post Demo.field Demo.tokens rq w) in
  let w' := snd (OTPVerifyView_post Demo.field Demo.tokens rq w) in
  OTPVerifySerializer Demo.field rq = inl ("a@x.com", "000000")
  /\ OTPVerifyView_post Demo.field Demo.tokens rq w = (o, w')
  /\ (forall a, Redis.keys (redis w') !! RateLimiter.email_key a
                = Redis.keys (redis w) !! RateLimiter.email_key a)
  /\ drawn w' = drawn w.
Proof.
  intros rq w o w'.
  assert (h1 : OTPVerifySerializer Demo.field rq = inl ("a@x.com", "000000"))
    by reflexivity.
  assert (h2 : OTPVerifyView_post Demo.field Demo.tokens rq w = (o, w'))
    by apply surjective_pairing.
  split; [exact h1|]. split; [exact h2|].
  pose proof (verify_touches_own_identity Demo.field Demo.tokens rq w w'
                "a@x.com" "000000" o h1 h2) as (_ & _ & Ha & _ & Hd & _).
  split; [exact Ha | exact Hd].
Defined.

Lemma request_leaves_lockout_alone_witness :
  let rq := Demo.ask "a@x.com" in
  let w := Demo.at_ Demo.locked in
  let o := fst (OTPRequestView_post Demo.field Demo.draw rq w) in
  let w' := snd (OTPRequestView_post Demo.field Demo.draw rq w) in
  OTPRequestSerializer Demo.field rq = inl "a@x.com"
  /\ OTPRequestView_post Demo.field Demo.draw rq w = (o, w')
  /\ (forall e', fst (RateLimiter.is_email_locked e' (redis w'))
                 = fst (RateLimiter.is_email_locked e' (redis w)))
  /\ (forall e', e' <> "a@x.com" ->
        Redis.keys (redis w') !! OTPService.key e'
        = Redis.keys (redis w) !! OTPService.key e')
  /\ users w' = users w.
Proof.
  intros rq w o w'.
  assert (h1 : OTPRequestSerializer Demo.field rq = inl "a@x.com") by reflexivity.
  assert (h2 : OTPRequestView_post Demo.field Demo.draw rq w = (o, w'))
    by apply surjective_pairing.
  split; [exact h1|]. split; [exact h2|].
  exact (request_leaves_lockout_alone Demo.field Demo.draw rq w w' "a@x.com" o h1 h2).
Defined.

(** A request for a code made while the identity is locked is served,
    and the identity is still locked after it. *)
Example locked_identity_can_still_request :
  let '(o, w') := OTPRequestView_post Demo.field Demo.draw (Demo.ask "a@x.com")
                    (Demo.at_ Demo.locked) in
  http_status o = Some 202
  /\ fst (RateLimiter.is_email_locked "a@x.com" (redis w')) = Ok (true, 900).
Proof. vm_compute. split; reflexivity. Qed.

Lemma otp_views_status_consistent_witness :
  let w := Demo.at_ Demo.spent in
  let resp := Response false "Too many OTP requests. Please try again later." 429
                (RetryAfter 500) 429 in
  let w' := snd (OTPRequestView_post Demo.field Demo.draw (Demo.ask "a@x.com") w) in
  OTPRequestView_post Demo.field Demo.draw (Demo.ask "a@x.com") w = (Ok resp, w')
  /\ status_code resp = status resp
  /\ In (status resp) [400; 429; 202]
  /\ success resp = (status resp =? 202).
Proof.
  intros w resp w'.
  assert (h1 : OTPRequestView_post Demo.field Demo.draw (Demo.ask "a@x.com") w
               = (Ok resp, w')) by (vm_compute; reflexivity).
  split; [exact h1|].
  exact (proj1 (otp_views_status_consistent Demo.field Demo.draw Demo.tokens)
           (Demo.ask "a@x.com") w resp w' h1).
Defined.

Lemma every_validated_request_is_audited_witness :
  let rq := Demo.present "a@x.com" "123456" in
  let w := Demo.at_ Demo.issued in
  let w' := snd (OTPVerifyView_post Demo.field Demo.tokens rq w) in
  OTPVerifySerializer Demo.field rq = inl ("a@x.com", "123456")
  /\ OTPVerifyView_post Demo.field Demo.tokens rq w = (Ok Sample.opened, w')
  /\ exists md,
       queue w'
       = (queue w ++ [write_audit_log (verify_event (status Sample.opened)) "a@x.com"
                        (get_client_ip rq) (get_client_user_agent rq) md])%list
       /\ In (verify_event (status Sample.opened)) (map fst Audit.EVENT_CHOICES).
Proof.
  intros rq w w'.
  assert (h1 : OTPVerifySerializer Demo.field rq = inl ("a@x.com", "123456"))
    by reflexivity.
  assert (h2 : OTPVerifyView_post Demo.field Demo.tokens rq w = (Ok Sample.opened, w'))
    by (vm_compute; reflexivity).
  split; [exact h1|]. split; [exact h2|].
  exact (proj2 (every_validated_request_is_audited Demo.field Demo.draw Demo.tokens)
           rq w "a@x.com" "123456" Sample.opened w' h1 h2).
Defined.

Lemma unresolvable_user_spends_code_witness :
  let rq := Demo.present "a@x.com" "123456" in
  let w := World Demo.issued [Sample.renamed] [] 0 in
  OTPVerifySerializer Demo.field rq = inl ("a@x.com", "123456")
  /\ low (redis w) (RateLimiter.failed_key "a@x.com") 4
  /\ Redis.live (redis w) (OTPService.key "a@x.com")
     = Some (Redis.Entry "123456" (Some 1300))
  /\ filter (fun v => email v = "a@x.com") (users w) = []
  /\ existsb (fun v => String.eqb (username v) "a@x.com") (users w) = true
  /\ exists r',
       OTPVerifyView_post Demo.field Demo.tokens rq w
       = (Raise IntegrityError, World r' (users w) (queue w) (drawn w))
       /\ Redis.keys r' !! OTPService.key "a@x.com" = None
       /\ Redis.keys r' !! RateLimiter.failed_key "a@x.com"
          = Redis.keys (redis w) !! RateLimiter.failed_key "a@x.com".
Proof.
  intros rq w.
  assert (h1 : OTPVerifySerializer Demo.field rq = inl ("a@x.com", "123456"))
    by reflexivity.
  assert (h2 : low (redis w) (RateLimiter.failed_key "a@x.com") 4) by exact I.
  assert (h3 : Redis.live (redis w) (OTPService.key "a@x.com")
               = Some (Redis.Entry "123456" (Some 1300))) by reflexivity.
  assert (h4 : filter (fun v => email v = "a@x.com") (users w) = []) by reflexivity.
  assert (h5 : existsb (fun v => String.eqb (username v) "a@x.com") (users w) = true)
    by reflexivity.
  split; [exact h1|]. split; [exact h2|]. split; [exact h3|]. split; [exact h4|].
  split; [exact h5|].
  exact (unresolvable_user_spends_code Demo.field Demo.tokens rq w "a@x.com" "123456"
           (Some 1300) h1 h2 h3 h4 h5).
Defined.


Lemma verified_identity_is_stable_witness :
  let rq := Demo.present "a@x.com" "123456" in
  let w := Demo.at_ Demo.issued in
  let w1 := snd (OTPVerifyView_post Demo.field Demo.tokens rq w) in
  let w2 := World Demo.issued (users w1) [] 0 in
  let w3 := snd (OTPVerifyView_post Demo.field Demo.tokens rq w2) in
  OTPVerifySerializer Demo.field rq = inl ("a@x.com", "123456")
  /\ OTPVerifyView_post Demo.field Demo.tokens rq w = (Ok Sample.opened, w1)
  /\ data Sample.opened = Session (Sample.newcomer 1000) "access" "refresh"
  /\ users w2 = users w1
  /\ OTPVerifyView_post Demo.field Demo.tokens rq w2 = (Ok Sample.opened, w3)
  /\ users w3 = users w2
  /\ write_audit_log "OTP_VERIFIED" "a@x.com" (get_client_ip rq)
       (get_client_user_agent rq)
       [("user_id", MInt (id (Sample.newcomer 1000))); ("user_created", MBool false)]
     ∈ queue w3.
Proof.
  intros rq w w1 w2 w3.
  assert (h1 : OTPVerifySerializer Demo.field rq = inl ("a@x.com", "123456"))
    by reflexivity.
  assert (h2 : OTPVerifyView_post Demo.field Demo.tokens rq w = (Ok Sample.opened, w1))
    by (vm_compute; reflexivity).
  assert (h3 : data Sample.opened = Session (Sample.newcomer 1000) "access" "refresh")
    by reflexivity.
  assert (h4 : users w2 = users w1) by reflexivity.
  assert (h5 : OTPVerifyView_post Demo.field Demo.tokens rq w2 = (Ok Sample.opened, w3))
    by (vm_compute; reflexivity).
  split; [exact h1|]. split; [exact h2|]. split; [exact h3|]. split; [exact h4|].
  split; [exact h5|].
  exact (proj2 (verified_identity_is_stable Demo.field Demo.tokens rq rq w w1 w2 w3
                  "a@x.com" "123456" "123456" Sample.opened Sample.opened
                  (Sample.newcomer 1000) (Sample.newcomer 1000)
                  "access" "refresh" "access" "refresh" h1 h1 h2 h3 h4 h5 h3)).
Defined.




(** The first hop of the header of the witness above. *)
Example forwarded_first_hop : get_client_ip Sample.forwarded = Some "1.2.3.4".
Proof. reflexivity. Qed.

Lemma get_queryset_edge_bounds_witness :
  bound Sample.parse (Some "20") = Some 20
  /\ bound Sample.parse (Some "10") = Some 10
  /\ 10 < 20
  /\ Audit.get_queryset Sample.parse Sample.rows (Some "20") (Some "10") = [].
Proof.
  assert (h1 : bound Sample.parse (Some "20") = Some 20) by reflexivity.
  assert (h2 : bound Sample.parse (Some "10") = Some 10) by reflexivity.
  assert (h3 : 10 < 20) by reflexivity.
  split; [exact h1|]. split; [exact h2|]. split; [exact h3|].
  exact (proj2 (get_queryset_edge_bounds Sample.parse Sample.rows (Some "20") (Some "10"))
           20 10 h1 h2 h3).
Defined.

(** The rows between 10 and 20 of the sample, and all of them under a
    lower bound that cannot be read. *)
Example get_queryset_sample :
  Audit.get_queryset Sample.parse Sample.rows (Some "10") (Some "20")
  = [Sample.row 2 15]
  /\ Audit.get_queryset Sample.parse Sample.rows (Some "yesterday") None = Sample.rows.
Proof. split; reflexivity. Qed.

Lemma permission_classes_nest_witness :
  Permissions.is_authenticated (Permissions.Principal false true true) = false
  /\ Permissions.AllUsers_has_permission (Permissions.Principal false true true)
     = Permissions.PermissionDenied "Authentication required."
  /\ Permissions.IsAdminUser_has_permission (Permissions.Principal false true true)
     = Permissions.PermissionDenied "Authentication required."
  /\ Permissions.IsSuperUser_has_permission (Permissions.Principal false true true)
     = Permissions.PermissionDenied "Authentication required.".
Proof.
  assert (h1 : Permissions.is_authenticated (Permissions.Principal false true true)
               = false) by reflexivity.
  split; [exact h1|].
  exact (proj1 (proj2 (proj2 (permission_classes_nest
                                (Permissions.Principal false true true)))) h1).
Defined.
